(** * conda_forge_tick.git_utils: the branch / pull-request synchronisation engine

    A shallow embedding of [src/conda_forge_tick/git_utils.py].

    - JSON blobs (the pull-request records and the hosted API's answers) are
      values of [json]; a Python [dict] is an insertion-ordered association
      list with unique keys; numbers are integers.
    - Python exceptions are the [Raise] results of the monad [M]; the state
      they leave behind is kept, as a [try]/[except] around the call would
      see it.
    - The mutable record objects live in a store ([heap]): a function that
      receives [pr_json] receives a location, and [copy.deepcopy] / [dict(..)]
      make new objects.  Values nested inside a record are held by value;
      the one place where the code changes a nested value through a second
      name ([close_out_dirty_prs]) writes it to both.
    - The hosted API, the git subprocesses and the standard streams are the
      remaining fields of [world]; every call on them is logged in [trace].
      The hosted side holds one pull request: get-pull answers 304 to its
      current ETag and 200 with the pull request otherwise, close-pull sets
      its state and changes its ETag, the other calls succeed.  Subprocesses
      answer through an oracle [proc].
    - Requests do not fail, so the retry wrappers ([backoff.on_exception])
      are transparent and left out.  [github3_client()] hands out the
      client of the thread; [sensitive_env] gives the token and [pushd]
      enters a directory (neither is among the sources). *)

From stdpp Require Import gmap strings list.
From Stdlib Require Import ZArith Ascii.

(** ** Python values *)

#[warnings="-register-all"]
Inductive json : Type :=
| JNull
| JBool (b : bool)
| JNum (n : Z)
| JStr (s : string)
| JList (l : list json)
| JDict (d : list (string * json)).

Abbreviation pydict := (list (string * json)).

Inductive exn : Type :=
| KeyError (k : string)
| TypeError
| IndexError
| ValueError
| AttributeError
| CalledProcessError (argv : list string)
| InvalidHeader
| DanglingReference.

Inductive res (A : Type) : Type :=
| OK (a : A)
| Raise (e : exn).
Arguments OK {A} a.
Arguments Raise {A} e.

(** ** Strings *)

Module Str.

(** [s.startswith(p)] *)
Fixpoint startswith (p s : string) : bool :=
  match p, s with
  | EmptyString, _ => true
  | String a p', String b s' => if Ascii.eqb a b then startswith p' s' else false
  | String _ _, EmptyString => false
  end.

(** [p in s] for two strings *)
Fixpoint contains (p s : string) : bool :=
  startswith p s ||
  match s with
  | EmptyString => false
  | String _ s' => contains p s'
  end.

Fixpoint rev_acc (s acc : string) : string :=
  match s with
  | EmptyString => acc
  | String c s' => rev_acc s' (String c acc)
  end.

(** [s.split(sep)] for a non-empty [sep]: [cur] is the piece being read,
    reversed; [skip] counts the characters of a separator still to pass. *)
Fixpoint split_go (sep : string) (skip : nat) (cur : string) (s : string)
  : list string :=
  match s with
  | EmptyString => [rev_acc cur EmptyString]
  | String c s' =>
      match skip with
      | S k => split_go sep k cur s'
      | O =>
          if startswith sep s
          then rev_acc cur EmptyString
                 :: split_go sep (String.length sep - 1) EmptyString s'
          else split_go sep 0 (String c cur) s'
      end
  end.

Definition split (s sep : string) : list string :=
  split_go sep 0 EmptyString s.

(** [s.rsplit(c, 1)] for a one-character separator: [None] when the
    separator does not occur (the list has one element then). *)
Fixpoint rsplit1 (c : Ascii.ascii) (s : string) : option (string * string) :=
  match s with
  | EmptyString => None
  | String a s' =>
      match rsplit1 c s' with
      | Some (b, e) => Some (String a b, e)
      | None => if Ascii.eqb a c then Some (EmptyString, s') else None
      end
  end.

(** [s[:n]] for [0 <= n] *)
Fixpoint take (n : nat) (s : string) : string :=
  match n, s with
  | S n', String c s' => String c (take n' s')
  | _, _ => EmptyString
  end.

(** [s[:-k]] for [0 < k] *)
Definition chop (k : nat) (s : string) : string :=
  take (String.length s - k) s.

(** [s[-1]] *)
Fixpoint last (s : string) : option Ascii.ascii :=
  match s with
  | EmptyString => None
  | String c EmptyString => Some c
  | String _ s' => last s'
  end.

End Str.

(** ** fork_url *)

(** [[
def fork_url(feedstock_url: str, username: str) -> str:
    beg, end = feedstock_url.rsplit("/", 1)
    beg = beg[:-11]  # chop off 'conda-forge'
    url = beg + username + "/" + end
    return url
]] *)
Definition fork_url (feedstock_url username : string) : res string :=
  match Str.rsplit1 "/"%char feedstock_url with
  | None => Raise ValueError
  | Some (beg, end_) =>
      let beg := Str.chop 11 beg in
      OK (beg +:+ username +:+ "/" +:+ end_)
  end.


(** ** Dictionaries and the operators the code applies to JSON values *)

Fixpoint dict_get (d : pydict) (k : string) : option json :=
  match d with
  | [] => None
  | (k', v) :: r => if String.eqb k' k then Some v else dict_get r k
  end.

(** [k in d] *)
Definition dict_mem (d : pydict) (k : string) : bool :=
  match dict_get d k with Some _ => true | None => false end.

(** [d[k] = v]: an existing key keeps its place, a new key goes last. *)
Fixpoint dict_set (d : pydict) (k : string) (v : json) : pydict :=
  match d with
  | [] => [(k, v)]
  | (k', v') :: r =>
      if String.eqb k' k then (k', v) :: r else (k', v') :: dict_set r k v
  end.

(** [d.get(k, dflt)] *)
Definition dict_get_default (d : pydict) (k : string) (dflt : json) : json :=
  match dict_get d k with Some v => v | None => dflt end.

(** [v == s] for a string literal [s] *)
Definition is_str (s : string) (v : json) : bool :=
  match v with JStr s' => String.eqb s' s | _ => false end.

(** [k in v] for a string literal [k]: key of a dict, element of a list,
    substring of a string; the other values are not iterable. *)
Definition py_in (k : string) (v : json) : res bool :=
  match v with
  | JDict d => OK (dict_mem d k)
  | JList l => OK (existsb (is_str k) l)
  | JStr s => OK (Str.contains k s)
  | JNull | JBool _ | JNum _ => Raise TypeError
  end.

(** [v[k]] for a string literal [k] *)
Definition py_getitem (v : json) (k : string) : res json :=
  match v with
  | JDict d => match dict_get d k with Some x => OK x | None => Raise (KeyError k) end
  | _ => Raise TypeError
  end.

(** [v[k] = x] for a string literal [k] *)
Definition py_setitem (v : json) (k : string) (x : json) : res json :=
  match v with
  | JDict d => OK (JDict (dict_set d k x))
  | _ => Raise TypeError
  end.

(** Truth value of a JSON value ([if v:], [not v]) *)
Definition truthy (v : json) : bool :=
  match v with
  | JNull => false
  | JBool b => b
  | JNum n => negb (Z.eqb n 0)
  | JStr s => negb (String.eqb s "")
  | JList l => match l with [] => false | _ => true end
  | JDict d => match d with [] => false | _ => true end
  end.

(** [for x in v]: the elements of a list, the keys of a dict, the
    characters of a string. *)
Definition py_iter (v : json) : res (list json) :=
  match v with
  | JList l => OK l
  | JDict d => OK (map (fun kv => JStr (fst kv)) d)
  | JStr s => OK (map (fun c => JStr (String c EmptyString)) (String.list_ascii_of_string s))
  | JNull | JBool _ | JNum _ => Raise TypeError
  end.

(** [[f(x) for x in l]], stopping at the first exception *)
Fixpoint map_res {A B : Type} (f : A -> res B) (l : list A) : res (list B) :=
  match l with
  | [] => OK []
  | x :: r =>
      match f x with
      | Raise e => Raise e
      | OK y => match map_res f r with
                | Raise e => Raise e
                | OK ys => OK (y :: ys)
                end
      end
  end.

(** ** Module constants *)

Definition BOT_RERUN_LABEL : pydict := [("name", JStr "bot-rerun")].

Definition CF_BOT_NAMES : list string :=
  ["regro-cf-autotick-bot"; "conda-forge-linter"].

(** The shape of [PR_KEYS_TO_KEEP]: a dict whose values are [None] (keep the
    value as it is) or a dict of the same kind (keep these keys of the
    nested dict). *)
#[warnings="-register-all"]
Inductive keyspec : Type :=
| Keys (items : list (string * option keyspec)).

Definition keyspec_items (ks : keyspec) : list (string * option keyspec) :=
  match ks with Keys items => items end.

Definition PR_KEYS_TO_KEEP : keyspec :=
  Keys [ ("ETag", None);
         ("Last-Modified", None);
         ("id", None);
         ("number", None);
         ("html_url", None);
         ("created_at", None);
         ("updated_at", None);
         ("merged_at", None);
         ("closed_at", None);
         ("state", None);
         ("mergeable_state", None);
         ("labels", None);
         ("merged", None);
         ("draft", None);
         ("mergeable", None);
         ("head", Some (Keys [("ref", None)]));
         ("base", Some (Keys [("repo", Some (Keys [("name", None)]))])) ].

(** ** _munge_dict *)

(** [[
    def _munge_dict(dest, src, keys):
        for k, v in keys.items():
            if k in src:
                if v is None:
                    dest[k] = src[k]
                else:
                    dest[k] = {}
                    _munge_dict(dest[k], src[k], v)
]]
    [dest] is mutated in place: the result is what [dest] holds when the
    loop ends or is left by an exception, and that exception if any. *)
Fixpoint _munge_dict (dest : pydict) (src : json) (keys : keyspec) {struct keys}
  : pydict * option exn :=
  match keys with
  | Keys items =>
      (fix loop (items : list (string * option keyspec)) (dest : pydict)
         {struct items} : pydict * option exn :=
         match items with
         | [] => (dest, None)
         | (k, v) :: rest =>
             match py_in k src with
             | Raise e => (dest, Some e)
             | OK false => loop rest dest
             | OK true =>
                 match v with
                 | None =>
                     match py_getitem src k with
                     | Raise e => (dest, Some e)
                     | OK x => loop rest (dict_set dest k x)
                     end
                 | Some sub =>
                     let dest1 := dict_set dest k (JDict []) in
                     match py_getitem src k with
                     | Raise e => (dest1, Some e)
                     | OK s =>
                         let '(inner, err) := _munge_dict [] s sub in
                         let dest2 := dict_set dest1 k (JDict inner) in
                         match err with
                         | Some e => (dest2, Some e)
                         | None => loop rest dest2
                         end
                     end
                 end
             end
         end) items dest
  end.

(** The key-subset invariant of a record: every key is one of [keys], and
    under a key with a nested shape sits a dict that satisfies the
    invariant for that shape. *)
Fixpoint conforms (keys : keyspec) (d : pydict) {struct keys} : bool :=
  match keys with
  | Keys items =>
      forallb (fun kx : string * json =>
        (fix find (items : list (string * option keyspec)) : bool :=
           match items with
           | [] => false
           | (k', v) :: rest =>
               if String.eqb k' (fst kx) then
                 match v with
                 | None => true
                 | Some sub =>
                     match snd kx with
                     | JDict inner => conforms sub inner
                     | _ => false
                     end
                 end
               else find rest
           end) items) d
  end.

(** The loop of [_munge_dict], named. *)
Fixpoint munge_items (items : list (string * option keyspec)) (dest : pydict)
                     (src : json) {struct items} : pydict * option exn :=
  match items with
  | [] => (dest, None)
  | (k, v) :: rest =>
      match py_in k src with
      | Raise e => (dest, Some e)
      | OK false => munge_items rest dest src
      | OK true =>
          match v with
          | None =>
              match py_getitem src k with
              | Raise e => (dest, Some e)
              | OK x => munge_items rest (dict_set dest k x) src
              end
          | Some sub =>
              let dest1 := dict_set dest k (JDict []) in
              match py_getitem src k with
              | Raise e => (dest1, Some e)
              | OK s =>
                  let '(inner, err) := _munge_dict [] s sub in
                  let dest2 := dict_set dest1 k (JDict inner) in
                  match err with
                  | Some e => (dest2, Some e)
                  | None => munge_items rest dest2 src
                  end
              end
          end
      end
  end.

(** The value [keys[k]] of a shape, when [k] is one of its keys. *)
Fixpoint spec_lookup (items : list (string * option keyspec)) (k : string)
  : option (option keyspec) :=
  match items with
  | [] => None
  | (k', v) :: rest => if String.eqb k' k then Some v else spec_lookup rest k
  end.

(** A dict literal has no key twice, at any depth. *)
Fixpoint distinct_keys (keys : keyspec) : bool :=
  match keys with
  | Keys items =>
      (fix go (items : list (string * option keyspec)) : bool :=
         match items with
         | [] => true
         | (k, v) :: rest =>
             negb (existsb (fun kv => String.eqb (fst kv) k) rest)
             && match v with None => true | Some sub => distinct_keys sub end
             && go rest
         end) items
  end.

(** Induction on shapes, through the list of items. *)
Fixpoint keyspec_induction (P : keyspec -> Prop)
    (step : forall items,
        Forall (fun kv => match snd kv with
                          | None => True
                          | Some sub => P sub
                          end) items ->
        P (Keys items))
    (keys : keyspec) {struct keys} : P keys :=
  match keys with
  | Keys items =>
      step items
        ((fix go (items : list (string * option keyspec))
            : Forall (fun kv => match snd kv with
                                | None => True
                                | Some sub => P sub
                                end) items :=
            match items with
            | [] => List.Forall_nil _
            | (k, v) :: rest =>
                List.Forall_cons _ (k, v) rest
                  (match v as o return match o with
                                       | None => True
                                       | Some sub => P sub
                                       end with
                   | None => I
                   | Some sub => keyspec_induction P step sub
                   end)
                  (go rest)
            end) items)
  end.

(** *** Statements about [_munge_dict] *)

Definition keys_of (items : list (string * option keyspec)) : list string :=
  map fst items.

(** None of the keys of [items] is in [d]. *)
Definition unset_in (items : list (string * option keyspec)) (d : pydict) : Prop :=
  forall k, In k (keys_of items) -> dict_get d k = None.

(** An entry that the shape [items] admits. *)
Definition admits (items : list (string * option keyspec)) (kx : string * json)
  : bool :=
  match spec_lookup items (fst kx) with
  | None => false
  | Some None => true
  | Some (Some sub) =>
      match snd kx with
      | JDict inner => conforms sub inner
      | _ => false
      end
  end.

(** Trimming what a pass has produced gives it back. *)
Definition munge_idempotent (keys : keyspec) : Prop :=
  distinct_keys keys = true ->
  forall src R,
    _munge_dict [] src keys = (R, None) ->
    _munge_dict [] (JDict R) keys = (R, None).

(** A pass keeps the key-subset invariant of [dest]. *)
Definition munge_conforms (keys : keyspec) : Prop :=
  distinct_keys keys = true ->
  forall dest src,
    conforms keys dest = true ->
    conforms keys (fst (_munge_dict dest src keys)) = true.

(** ** The world: record objects, hosted API, subprocesses, streams *)

Abbreviation loc := nat.

Inductive event : Type :=
| Print (text : string) (args : list json)        (* print(...) *)
| PrintStderr (text : string)                     (* print(..., file=sys.stderr) *)
| RequestsGet (repo_name number : json) (if_none_match : option string)
| GhMe                                            (* gh.me() *)
| GhRepository (owner : string) (name : json)     (* gh.repository(owner, name) *)
| GhPullRequest (number : json)                   (* repo.pull_request(number) *)
| GhCreateComment (body : string)                 (* pr_obj.create_comment(body) *)
| GhClosePull                                     (* pr_obj.close() *)
| GhListCommits                                   (* pr_obj.commits() *)
| GhCreatePull (title base head body : string)    (* repo.create_pull(...) *)
| GhGetLabel (name : json)                        (* repo.label(name) *)
| GhCreateLabel (label : pydict)                  (* repo.create_label with the label as keywords *)
| GhIssue (number : json)                         (* repo.issue(number) *)
| GhAddLabels (name : json)                       (* iss.add_labels(name) *)
| SubprocessRun (argv : list string)              (* subprocess.run(argv) *)
| DoctrRun (argv : list string).                  (* doctr_run(argv, token=...) *)

(** A newly created pull request: [pr.html_url] and [pr.as_dict()]. *)
Record new_pull : Type := NewPull {
  html_url : string;
  as_dict : pydict;
}.

Record world : Type := World {
  heap : gmap loc pydict;            (* the dict-like record objects *)
  trace : list event;                (* the calls made so far, oldest first *)
  bot_token : string;                (* sensitive_env()["BOT_TOKEN"] *)
  run_url : string;                  (* os.environ.get("RUN_URL", "") *)
  gh_login : string;                 (* gh.me().login *)
  gh_pull : pydict;                  (* the pull request, as the hosted API serves it *)
  gh_etag : string;                  (* its ETag header *)
  gh_last_modified : string;         (* its Last-Modified header *)
  gh_commit_authors : list string;   (* commit.author.name of each of its commits *)
  gh_labels : list json;             (* the labels defined on the repository *)
  gh_create_pull : option new_pull;  (* what create_pull answers *)
  fs_dirs : list string;             (* the directories that exist *)
  (* exit code and standard output of a subprocess, from the calls made
     before it and its argv *)
  proc : list event -> list string -> Z * string;
}.

Definition set_heap (h : gmap loc pydict) (w : world) : world :=
  World h (trace w) (bot_token w) (run_url w) (gh_login w) (gh_pull w)
        (gh_etag w) (gh_last_modified w) (gh_commit_authors w) (gh_labels w)
        (gh_create_pull w) (fs_dirs w) (proc w).

Definition set_trace (t : list event) (w : world) : world :=
  World (heap w) t (bot_token w) (run_url w) (gh_login w) (gh_pull w)
        (gh_etag w) (gh_last_modified w) (gh_commit_authors w) (gh_labels w)
        (gh_create_pull w) (fs_dirs w) (proc w).

Definition set_gh_pull (p : pydict) (etag : string) (w : world) : world :=
  World (heap w) (trace w) (bot_token w) (run_url w) (gh_login w) p
        etag (gh_last_modified w) (gh_commit_authors w) (gh_labels w)
        (gh_create_pull w) (fs_dirs w) (proc w).


(** ** The monad of the embedding: state and exceptions *)

Definition M (A : Type) : Type := world -> res A * world.

Definition ret {A : Type} (a : A) : M A := fun w => (OK a, w).

Definition bind {A B : Type} (m : M A) (k : A -> M B) : M B :=
  fun w =>
    match m w with
    | (OK a, w') => k a w'
    | (Raise e, w') => (Raise e, w')
    end.

Declare Scope py_scope.
Delimit Scope py_scope with py.
Notation "x <- m ;; k" := (bind m (fun x => k))
  (at level 100, m at next level, right associativity) : py_scope.
Notation "m ;; k" := (bind m (fun _ => k))
  (at level 100, right associativity) : py_scope.
Open Scope py_scope.

Definition raise {A : Type} (e : exn) : M A := fun w => (Raise e, w).

Definition lift {A : Type} (r : res A) : M A := fun w => (r, w).

Definition when (b : bool) (m : M unit) : M unit := if b then m else ret tt.

(** [try: m except subprocess.CalledProcessError: handler] *)
Definition except_CalledProcessError {A : Type} (m handler : M A) : M A :=
  fun w =>
    match m w with
    | (Raise (CalledProcessError _), w') => handler w'
    | r => r
    end.

Definition emit (e : event) : M unit :=
  fun w => (OK tt, set_trace (trace w ++ [e]) w).

Definition ask {A : Type} (f : world -> A) : M A := fun w => (OK (f w), w).

Definition modify (f : world -> world) : M unit := fun w => (OK tt, f w).

(** *** Record objects *)

Definition load (l : loc) : M pydict :=
  fun w =>
    match heap w !! l with
    | Some d => (OK d, w)
    | None => (Raise DanglingReference, w)
    end.

Definition store (l : loc) (d : pydict) : M unit :=
  fun w => (OK tt, set_heap (<[l := d]> (heap w)) w).

(** A new dict object holding [d] *)
Definition alloc (d : pydict) : M loc :=
  fun w =>
    let l := fresh (dom (heap w)) in
    (OK l, set_heap (<[l := d]> (heap w)) w).

(** [pr_json[k]] *)
Definition getitem (l : loc) (k : string) : M json :=
  d <- load l ;; lift (py_getitem (JDict d) k).

(** [pr_json[k] = v] *)
Definition setitem (l : loc) (k : string) (v : json) : M unit :=
  d <- load l ;; store l (dict_set d k v).

(** [pr_json.get(k, dflt)] *)
Definition get_default (l : loc) (k : string) (dflt : json) : M json :=
  d <- load l ;; ret (dict_get_default d k dflt).

(** *** The hosted API *)

Inductive response : Type :=
| Response (status_code : Z) (body : pydict) (etag last_modified : string).

(** get-pull, conditional on the ETag: not modified (304) when the
    [If-None-Match] header carries the current ETag, the pull request with
    its cache headers (200) otherwise.  A header whose value is [None] is
    dropped from the request; any other value that is not a string is
    refused before anything is sent. *)
Definition requests_get (repo_name number : json) (if_none_match : option json)
  : M response :=
  match if_none_match with
  | Some (JStr e) =>
      emit (RequestsGet repo_name number (Some e)) ;;
      w <- ask id ;;
      if String.eqb e (gh_etag w)
      then ret (Response 304 [] (gh_etag w) (gh_last_modified w))
      else ret (Response 200 (gh_pull w) (gh_etag w) (gh_last_modified w))
  | None | Some JNull =>
      emit (RequestsGet repo_name number None) ;;
      w <- ask id ;;
      ret (Response 200 (gh_pull w) (gh_etag w) (gh_last_modified w))
  | Some _ => raise InvalidHeader
  end.

(** close-pull: the pull request becomes closed, which changes its ETag. *)
Definition pr_obj_close : M unit :=
  emit GhClosePull ;;
  modify (fun w => set_gh_pull (dict_set (gh_pull w) "state" (JStr "closed"))
                               (gh_etag w +:+ "'") w).

Definition pr_obj_create_comment (body : string) : M unit :=
  emit (GhCreateComment body).

Definition pr_obj_commits : M (list string) :=
  emit GhListCommits ;; ask gh_commit_authors.

(** [gh.me().login] *)
Definition gh_me_login : M string := emit GhMe ;; ask gh_login.

(** [subprocess.run(argv)]: exit code and standard output *)
Definition subprocess_run (argv : list string) : M (Z * string) :=
  w <- ask id ;;
  emit (SubprocessRun argv) ;;
  ret (proc w (trace w) argv).

(** [doctr_run(argv, token=...)]: the exit code *)
Definition doctr_run (argv : list string) : M Z :=
  w <- ask id ;;
  emit (DoctrRun argv) ;;
  ret (fst (proc w (trace w) argv)).

(** *** Nested items of a record *)

(** [v[p1]...[pn]] *)
Fixpoint py_getitem_path (v : json) (path : list string) : res json :=
  match path with
  | [] => OK v
  | p :: ps =>
      match py_getitem v p with
      | Raise e => Raise e
      | OK inner => py_getitem_path inner ps
      end
  end.

(** [v[p1]...[pn][k] = x]: the nested dicts are held by value, so the
    changed inner dict is put back under its key. *)
Fixpoint py_setitem_path (v : json) (path : list string) (k : string) (x : json)
  : res json :=
  match path with
  | [] => py_setitem v k x
  | p :: ps =>
      match py_getitem v p with
      | Raise e => Raise e
      | OK inner =>
          match py_setitem_path inner ps k x with
          | Raise e => Raise e
          | OK inner' => py_setitem v p inner'
          end
      end
  end.

Definition getitem_path (l : loc) (path : list string) : M json :=
  d <- load l ;; lift (py_getitem_path (JDict d) path).

Definition setitem_path (l : loc) (path : list string) (k : string) (x : json)
  : M unit :=
  d <- load l ;;
  v <- lift (py_setitem_path (JDict d) path k x) ;;
  match v with
  | JDict d' => store l d'
  | _ => raise TypeError
  end.

(** [s.split(sep)[i]] on a JSON value: only strings have [split]. *)
Definition py_split_nth (v : json) (sep : string) (i : nat) : res string :=
  match v with
  | JStr s =>
      match nth_error (Str.split s sep) i with
      | Some piece => OK piece
      | None => Raise IndexError
      end
  | _ => Raise AttributeError
  end.

(** [a + v] for a string [a]: [v] has to be a string. *)
Definition py_str_add (a : string) (v : json) : res string :=
  match v with
  | JStr s => OK (a +:+ s)
  | _ => Raise TypeError
  end.

(** An element of an argv has to be a string. *)
Definition py_argv_str (v : json) : res string :=
  match v with
  | JStr s => OK s
  | _ => Raise TypeError
  end.

(** ** delete_branch *)

(** [[
def delete_branch(pr_json: LazyJson, dry_run: bool = False) -> None:
    ref = pr_json["head"]["ref"]
    if dry_run:
        print(f"dry run: deleting ref {ref}")
        return
    name = pr_json["base"]["repo"]["name"]
    gh = github3_client()
    deploy_repo = gh.me().login + "/" + name
    with sensitive_env() as env:
        doctr_run(["git", "push",
                   f"https://{env['BOT_TOKEN']}@github.com/{deploy_repo}.git",
                   "--delete", ref], token=env["BOT_TOKEN"].encode("utf-8"))
    # Replace ref so we know not to try again
    pr_json["head"]["ref"] = "this_is_not_a_branch"
]] *)
Definition delete_branch (pr_json : loc) (dry_run : bool) : M unit :=
  ref <- getitem_path pr_json ["head"; "ref"] ;;
  if dry_run then emit (Print "dry run: deleting ref " [ref])
  else
    name <- getitem_path pr_json ["base"; "repo"; "name"] ;;
    login <- gh_me_login ;;
    deploy_repo <- lift (py_str_add (login +:+ "/") name) ;;
    token <- ask bot_token ;;
    ref_arg <- lift (py_argv_str ref) ;;
    _ <- doctr_run ["git"; "push";
                    "https://" +:+ token +:+ "@github.com/" +:+ deploy_repo +:+ ".git";
                    "--delete"; ref_arg] ;;
    setitem_path pr_json ["head"] "ref" (JStr "this_is_not_a_branch").

(** ** trim_pr_json_keys *)

(** [[
    if src_pr_json is None:
        src_pr_json = copy.deepcopy(dict(pr_json))
    pr_json.clear()
    _munge_dict(pr_json, src_pr_json, PR_KEYS_TO_KEEP)
    return pr_json
]]
    The source is an object of the store, or the deep copy, which nothing
    else refers to.  A source that is [pr_json] itself is read after the
    [clear()]. *)
Definition trim_pr_json_keys (pr_json : loc) (src_pr_json : option loc) : M loc :=
  src_pr_json <- match src_pr_json with
                 | None => d <- load pr_json ;; ret (inr d)
                 | Some s => ret (inl s)
                 end ;;
  _ <- load pr_json ;;
  store pr_json [] ;;                        (* pr_json.clear() *)
  src <- match src_pr_json with
         | inl s => load s
         | inr copy => ret copy
         end ;;
  dest <- load pr_json ;;
  let '(dest', err) := _munge_dict dest (JDict src) PR_KEYS_TO_KEEP in
  store pr_json dest' ;;
  match err with
  | Some e => raise e
  | None => ret pr_json
  end.

(** ** lazy_update_pr_json *)

(** The body of [src/conda_forge_tick/git_utils.py], lines 459 to 496.  The
    three reads of [pr_json["base"]] in the condition of the backfill see
    the same value and are made once. *)
Definition lazy_update_pr_json (pr_json : loc) (force : bool) : M loc :=
  d <- load pr_json ;;
  if_none_match <- (if negb force && dict_mem d "ETag"
                    then e <- getitem pr_json "ETag" ;; ret (Some e)
                    else ret None) ;;
  base <- getitem pr_json "base" ;;
  has_repo <- lift (py_in "repo" base) ;;
  backfill <- (if negb has_repo then ret true
               else repo <- lift (py_getitem base "repo") ;;
                    has_name <- lift (py_in "name" repo) ;;
                    ret (negb has_name)) ;;
  when backfill (
    (* some pr json blobs never had this key so we backfill *)
    html_url <- getitem pr_json "html_url" ;;
    repo_name <- lift (py_split_nth html_url "/conda-forge/" 1) ;;
    repo_name <- match Str.last repo_name with
                 | None => raise IndexError
                 | Some c => ret (if Ascii.eqb c "/" then Str.chop 1 repo_name
                                  else repo_name)
                 end ;;
    base <- getitem pr_json "base" ;;
    has_repo <- lift (py_in "repo" base) ;;
    when (negb has_repo) (setitem_path pr_json ["base"] "repo" (JDict [])) ;;
    setitem_path pr_json ["base"; "repo"] "name" (JStr repo_name)) ;;
  name <- getitem_path pr_json ["base"; "repo"; "name"] ;;
  has_pull <- lift (py_in "/pull/" name) ;;
  when has_pull (
    name <- getitem_path pr_json ["base"; "repo"; "name"] ;;
    first <- lift (py_split_nth name "/pull/" 0) ;;
    setitem_path pr_json ["base"; "repo"] "name" (JStr first)) ;;
  name <- getitem_path pr_json ["base"; "repo"; "name"] ;;
  number <- getitem pr_json "number" ;;
  r <- requests_get name number if_none_match ;;
  match r with
  | Response status_code body etag last_modified =>
      if Z.eqb status_code 200 then
        src <- alloc body ;;
        pr_json <- trim_pr_json_keys pr_json (Some src) ;;
        setitem pr_json "ETag" (JStr etag) ;;
        setitem pr_json "Last-Modified" (JStr last_modified) ;;
        ret pr_json
      else
        trim_pr_json_keys pr_json None
  end.

(** ** refresh_pr *)

(** [[
def refresh_pr(pr_json, dry_run=False):
    if pr_json["state"] != "closed":
        if dry_run:
            print("dry run: refresh pr %s" % pr_json["id"])
            pr_dict = dict(pr_json)
        else:
            pr_json = lazy_update_pr_json(copy.deepcopy(pr_json))
            if pr_json["state"] == "closed" and pr_json.get("merged_at", False):
                delete_branch(pr_json=pr_json, dry_run=dry_run)
            pr_dict = dict(pr_json)
        return pr_dict
    return None
]]
    The retry wrapper only acts on request exceptions and is left out. *)
Definition refresh_pr (pr_json : loc) (dry_run : bool) : M (option pydict) :=
  state <- getitem pr_json "state" ;;
  if negb (is_str "closed" state) then
    if dry_run then
      id_ <- getitem pr_json "id" ;;
      emit (Print "dry run: refresh pr %s" [id_]) ;;
      pr_dict <- load pr_json ;;
      ret (Some pr_dict)
    else
      d <- load pr_json ;;
      copy <- alloc d ;;
      pr_json <- lazy_update_pr_json copy false ;;
      state <- getitem pr_json "state" ;;
      merged_at <- get_default pr_json "merged_at" (JBool false) ;;
      when (is_str "closed" state && truthy merged_at)
           (delete_branch pr_json dry_run) ;;
      pr_dict <- load pr_json ;;
      ret (Some pr_dict)
  else ret None.

(** ** get_pr_obj_from_pr_json *)

(** [[
    feedstock_reponame = pr_json["base"]["repo"]["name"]
    repo = gh.repository("conda-forge", feedstock_reponame)
    return repo.pull_request(pr_json["number"])
]] *)
Definition get_pr_obj_from_pr_json (pr_json : loc) : M unit :=
  feedstock_reponame <- getitem_path pr_json ["base"; "repo"; "name"] ;;
  emit (GhRepository "conda-forge" feedstock_reponame) ;;
  number <- getitem pr_json "number" ;;
  emit (GhPullRequest number).

(** ** close_out_labels *)

(** [pr_json["state"] != "closed" and "bot-rerun" in
    [lab["name"] for lab in pr_json.get("labels", [])]] *)
Definition open_with_rerun_label (pr_json : loc) : M bool :=
  state <- getitem pr_json "state" ;;
  if negb (is_str "closed" state) then
    labels <- get_default pr_json "labels" (JList []) ;;
    labs <- lift (py_iter labels) ;;
    names <- lift (map_res (fun lab => py_getitem lab "name") labs) ;;
    ret (existsb (is_str "bot-rerun") names)
  else ret false.

Definition rerun_comment (url : string) : string :=
  "Due to the `bot-rerun` label I'm closing "
  +:+ "this PR. I will make another one as"
  +:+ " appropriate. This message was generated by " +:+ url
  +:+ " - please use this URL for debugging.".

(** The body of [src/conda_forge_tick/git_utils.py], lines 558 to 589;
    [github3_client()] hands out the thread's client and calls nothing. *)
Definition close_out_labels (pr_json : loc) (dry_run : bool) : M (option pydict) :=
  (* run this twice so we always have the latest info *)
  c <- open_with_rerun_label pr_json ;;
  pr_json <- (if c then
                if dry_run then
                  id_ <- getitem pr_json "id" ;;
                  emit (Print "dry run: checking pr %s" [id_]) ;;
                  ret pr_json
                else lazy_update_pr_json pr_json false
              else ret pr_json) ;;
  c <- open_with_rerun_label pr_json ;;
  if c then
    pr_json <- (if dry_run then
                  id_ <- getitem pr_json "id" ;;
                  emit (Print "dry run: comment and close pr %s" [id_]) ;;
                  ret pr_json
                else
                  get_pr_obj_from_pr_json pr_json ;;
                  url <- ask run_url ;;
                  pr_obj_create_comment (rerun_comment url) ;;
                  pr_obj_close ;;
                  delete_branch pr_json dry_run ;;
                  lazy_update_pr_json pr_json false) ;;
    d <- load pr_json ;;
    ret (Some d)
  else ret None.

(** ** push_repo *)

Inductive push_result : Type :=
| PushFalse                     (* return False *)
| PushRecord (pr_json : loc).   (* return trim_pr_json_keys(pr_dict) *)

(** The body of [src/conda_forge_tick/git_utils.py], lines 630 to 682.
    [feedstock_name] is [fctx.feedstock_name]; entering [feedstock_dir]
    ([pushd], not among the sources) is not tracked. *)
Definition push_repo (feedstock_name feedstock_dir body title branch
                        base_branch : string) (head : option string)
                     (dry_run : bool) : M push_result :=
  token <- ask bot_token ;;
  gh_username <- gh_me_login ;;
  let head := match head with
              | None => gh_username +:+ ":" +:+ branch
              | Some h => h
              end in
  let deploy_repo := gh_username +:+ "/" +:+ feedstock_name +:+ "-feedstock" in
  pushed <- (if dry_run then
               emit (Print "dry run: adding remote and pushing up branch for "
                           [JStr ("https://github.com/" +:+ deploy_repo +:+ ".git")]) ;;
               ret true
             else
               ecode <- doctr_run ["git"; "remote"; "add"; "regro_remote";
                                   "https://" +:+ token +:+ "@github.com/"
                                   +:+ deploy_repo +:+ ".git"] ;;
               if negb (Z.eqb ecode 0) then
                 emit (Print "Failed to add git remote!" []) ;; ret false
               else
                 ecode <- doctr_run ["git"; "push"; "--set-upstream";
                                     "regro_remote"; branch] ;;
                 if negb (Z.eqb ecode 0) then
                   emit (Print "Failed to push to remote!" []) ;; ret false
                 else ret true) ;;
  if negb pushed then ret PushFalse
  else
    (* lastly make a PR for the feedstock *)
    emit (Print "Creating conda-forge feedstock pull request..." []) ;;
    if dry_run then
      emit (Print "dry run: create pr with title: " [JStr title]) ;;
      ret PushFalse
    else
      emit (GhCreatePull title base_branch head body) ;;
      pr <- ask gh_create_pull ;;
      match pr with
      | None =>
          emit (Print "Failed to create pull request!" []) ;;
          ret PushFalse
      | Some pr =>
          emit (Print "Pull request created at " [JStr (html_url pr)]) ;;
          (* Return a json object so we can remake the PR if needed *)
          pr_dict <- alloc (as_dict pr) ;;
          pr_dict <- trim_pr_json_keys pr_dict None ;;
          ret (PushRecord pr_dict)
      end.

(** ** ensure_label_exists, label_pr *)




(** ** close_out_dirty_prs *)

(** [pr_json["state"] != "closed" and pr_json["mergeable_state"] == "dirty"] *)
Definition open_and_dirty (pr_json : loc) : M bool :=
  state <- getitem pr_json "state" ;;
  if negb (is_str "closed" state) then
    mergeable_state <- getitem pr_json "mergeable_state" ;;
    ret (is_str "dirty" mergeable_state)
  else ret false.

Definition dirty_comment (url : string) : string :=
  "I see that this PR has conflicts, and I'm the only committer. "
  +:+ "I'm going to close this PR and will make another one as"
  +:+ " appropriate. This was generated by " +:+ url +:+ " - "
  +:+ "please use this URL for debugging,".

(** [name in CF_BOT_NAMES] *)
Definition is_bot_name (name : string) : bool :=
  existsb (String.eqb name) CF_BOT_NAMES.

(** [d["labels"].append(x)]: only lists have [append]. *)
Definition py_append (v x : json) : res json :=
  match v with
  | JList l => OK (JList (l ++ [x]))
  | _ => Raise AttributeError
  end.

(** The body of [src/conda_forge_tick/git_utils.py], lines 737 to 786.
    [d = dict(pr_json)] copies the record one level deep: the list under
    ["labels"] is the very list [pr_json] holds, so the label appended
    through [d] is put into the record object as well. *)
Definition close_out_dirty_prs (pr_json : loc) (dry_run : bool)
  : M (option pydict) :=
  (* run this twice so we always have the latest info *)
  c <- open_and_dirty pr_json ;;
  pr_json <- (if c then
                if dry_run then
                  id_ <- getitem pr_json "id" ;;
                  emit (Print "dry run: checking pr %s" [id_]) ;;
                  ret pr_json
                else lazy_update_pr_json pr_json false
              else ret pr_json) ;;
  c <- open_and_dirty pr_json ;;
  draft <- (if c then get_default pr_json "draft" (JBool false)
            else ret (JBool false)) ;;
  if c && negb (truthy draft) then
    d <- load pr_json ;;
    if dry_run then
      id_ <- getitem pr_json "id" ;;
      emit (Print "dry run: comment and close pr %s" [id_]) ;;
      ret (Some d)
    else
      get_pr_obj_from_pr_json pr_json ;;
      authors <- pr_obj_commits ;;
      if forallb is_bot_name authors then
        url <- ask run_url ;;
        pr_obj_create_comment (dirty_comment url) ;;
        pr_obj_close ;;
        delete_branch pr_json dry_run ;;
        pr_json <- lazy_update_pr_json pr_json false ;;
        d <- load pr_json ;;
        labels <- lift (py_getitem (JDict d) "labels") ;;
        labels <- lift (py_append labels (JDict BOT_RERUN_LABEL)) ;;
        setitem pr_json "labels" labels ;;
        ret (Some (dict_set d "labels" labels))
      else ret (Some d)
  else ret None.

(** ** fetch_repo *)

Definition os_path_isdir (dir : string) : M bool :=
  w <- ask id ;; ret (existsb (String.eqb dir) (fs_dirs w)).

(** [[
    def _run_git_cmd(cmd, **kwargs):
        return subprocess.run(["git"] + cmd, check=True, **kwargs)
]] *)
Definition _run_git_cmd (cmd : list string) : M (Z * string) :=
  p <- subprocess_run ("git" :: cmd) ;;
  if negb (Z.eqb (fst p) 0) then raise (CalledProcessError ("git" :: cmd))
  else ret p.

(** Lines 235 to 272: what follows the clone, inside [pushd(feedstock_dir)]. *)
Definition fetch_repo_branches (reset_hard : bool)
                               (upstream branch base_branch : string) : M bool :=
  let quiet := "--quiet" in
  when reset_hard (_run_git_cmd ["reset"; "--hard"; "HEAD"] ;; ret tt) ;;
  (* doesn't work if the upstream already exists *)
  except_CalledProcessError
    (_run_git_cmd ["remote"; "add"; "upstream"; upstream] ;; ret tt)
    (ret tt) ;;
  (* fetch remote changes *)
  _run_git_cmd ["fetch"; "--all"; quiet] ;;
  listed <- _run_git_cmd ["branch"; "--list"; base_branch] ;;
  (if negb (String.eqb (snd listed) "") then
     _run_git_cmd ["checkout"; base_branch; quiet] ;; ret tt
   else
     except_CalledProcessError
       (_run_git_cmd ["checkout"; "--track"; "upstream/" +:+ base_branch; quiet] ;;
        ret tt)
       (_run_git_cmd ["checkout"; "-b"; base_branch; "upstream/" +:+ base_branch;
                      quiet] ;;
        ret tt)) ;;
  _run_git_cmd ["reset"; "--hard"; "upstream/" +:+ base_branch; quiet] ;;
  (* make and modify version branch *)
  except_CalledProcessError
    (_run_git_cmd ["checkout"; branch; quiet] ;; ret tt)
    (_run_git_cmd ["checkout"; "-b"; branch; base_branch; quiet] ;; ret tt) ;;
  ret true.

(** Lines 222 to 233, then the rest. *)
Definition fetch_repo (feedstock_dir origin upstream branch base_branch : string)
  : M bool :=
  isdir <- os_path_isdir feedstock_dir ;;
  if negb isdir then
    p <- subprocess_run ["git"; "clone"; "-q"; origin; feedstock_dir] ;;
    if negb (Z.eqb (fst p) 0) then
      let msg := "Could not clone " +:+ origin in
      let msg := msg +:+ ". Do you have a personal fork of the feedstock?" in
      emit (PrintStderr msg) ;;
      ret false
    else fetch_repo_branches false upstream branch base_branch
  else fetch_repo_branches true upstream branch base_branch.

(** ** feedstock_url, feedstock_repo *)

(** [c.lower()] for an ASCII letter.  The other characters are kept: only
    the ASCII capitals are lowered to the letters of "http", "https" and
    "ssh", which is all that [feedstock_url] asks of the result. *)
Definition ascii_lower (c : Ascii.ascii) : Ascii.ascii :=
  let n := Ascii.nat_of_ascii c in
  if (65 <=? n) && (n <=? 90) then Ascii.ascii_of_nat (n + 32) else c.

(** [s.lower()] *)
Fixpoint str_lower (s : string) : string :=
  match s with
  | EmptyString => EmptyString
  | String c s' => String (ascii_lower c) (str_lower s')
  end.



(** The two names of a [FeedstockContext] ([.contexts] is not among the
    sources); its [attrs] are not read by the functions below. *)
Record FeedstockContext : Type := {
  package_name : string;
  feedstock_name : string;
}.

(** [[
def feedstock_url(fctx: FeedstockContext, protocol: str = "ssh") -> str:
    feedstock = fctx.feedstock_name + "-feedstock"
    if feedstock.startswith("http://github.com/"):
        return feedstock
    elif feedstock.startswith("https://github.com/"):
        return feedstock
    elif feedstock.startswith("git@github.com:"):
        return feedstock
    protocol = protocol.lower()
    if protocol == "http":
        url = "http://github.com/conda-forge/" + feedstock + ".git"
    elif protocol == "https":
        url = "https://github.com/conda-forge/" + feedstock + ".git"
    elif protocol == "ssh":
        url = "git@github.com:conda-forge/" + feedstock + ".git"
    else:
        msg = "Unrecognized github protocol {0!r}, must be ssh, http, or https."
        raise ValueError(msg.format(protocol))
    return url
]] *)
Definition feedstock_url (fctx : FeedstockContext) (protocol : string) : res string :=
  let feedstock := feedstock_name fctx +:+ "-feedstock" in
  if Str.startswith "http://github.com/" feedstock then OK feedstock
  else if Str.startswith "https://github.com/" feedstock then OK feedstock
  else if Str.startswith "git@github.com:" feedstock then OK feedstock
  else
    let protocol := str_lower protocol in
    if String.eqb protocol "http" then
      OK ("http://github.com/conda-forge/" +:+ feedstock +:+ ".git")
    else if String.eqb protocol "https" then
      OK ("https://github.com/conda-forge/" +:+ feedstock +:+ ".git")
    else if String.eqb protocol "ssh" then
      OK ("git@github.com:conda-forge/" +:+ feedstock +:+ ".git")
    else Raise ValueError.


(** * The vocabulary of the statements *)

(** What [trim_pr_json_keys] leaves in [pr_json] when the source holds
    [src], and the exception that ends it, if any. *)
Definition trimmed (src : pydict) : pydict * option exn :=
  _munge_dict [] (JDict src) PR_KEYS_TO_KEEP.

(** What the source of [trim_pr_json_keys] holds once [pr_json], which
    held [d], has been cleared. *)
Definition trim_source (w : world) (pr_json : loc) (d : pydict)
                       (src_pr_json : option loc) : option pydict :=
  match src_pr_json with
  | None => Some d
  | Some s => <[pr_json := []]> (heap w) !! s
  end.

(** The entries that a pass over [items] copies from the dict [src]. *)
Fixpoint project_items (items : list (string * option keyspec)) (src : pydict)
  : pydict :=
  match items with
  | [] => []
  | (k, v) :: rest =>
      match dict_get src k with
      | None => project_items rest src
      | Some x =>
          (k, match v with
              | None => x
              | Some sub => JDict (fst (_munge_dict [] x sub))
              end) :: project_items rest src
      end
  end.

(** The string under a path of nested keys, if there is one. *)
Definition str_at (d : pydict) (path : list string) : option string :=
  match py_getitem_path (JDict d) path with
  | OK (JStr s) => Some s
  | _ => None
  end.

(** A pull request in the shape of the data model: the name of the base
    repository (without the path suffix of older records), the head
    reference, the number, and an ETag that is a string when there is one. *)
Definition pull_shaped (d : pydict) : bool :=
  match str_at d ["base"; "repo"; "name"] with
  | Some n => negb (Str.contains "/pull/" n)
  | None => false
  end
  && match str_at d ["head"; "ref"] with Some _ => true | None => false end
  && dict_mem d "number"
  && match dict_get d "ETag" with
     | None | Some (JStr _) => true
     | Some _ => false
     end.

(** The lookups behind [pull_shaped]. *)
Record shaped (d : pydict) (n r : string) (num : json) : Prop := Shaped {
  shaped_base : exists b rp,
      dict_get d "base" = Some (JDict b)
      /\ dict_get b "repo" = Some (JDict rp)
      /\ dict_get rp "name" = Some (JStr n);
  shaped_name : Str.contains "/pull/" n = false;
  shaped_head : exists h,
      dict_get d "head" = Some (JDict h) /\ dict_get h "ref" = Some (JStr r);
  shaped_number : dict_get d "number" = Some num;
  shaped_etag : dict_get d "ETag" = None
                \/ exists e, dict_get d "ETag" = Some (JStr e);
}.

(** The [If-None-Match] header that goes out for the record [d]. *)
Definition if_none_match_of (d : pydict) : option string :=
  match dict_get d "ETag" with
  | Some (JStr e) => Some e
  | _ => None
  end.

(** The hosted API answers "not modified" to the record [d]. *)
Definition not_modified (w : world) (d : pydict) : bool :=
  match if_none_match_of d with
  | Some e => String.eqb e (gh_etag w)
  | None => false
  end.

(** Name of the base repository, number and head reference of a record. *)
Definition repo_name_of (d : pydict) : string :=
  default "" (str_at d ["base"; "repo"; "name"]).

Definition number_of (d : pydict) : json := dict_get_default d "number" JNull.

Definition ref_of (d : pydict) : string := default "" (str_at d ["head"; "ref"]).

(** The record after a fresh (200) answer. *)
Definition refreshed (w : world) : pydict :=
  dict_set (dict_set (fst (trimmed (gh_pull w))) "ETag" (JStr (gh_etag w)))
           "Last-Modified" (JStr (gh_last_modified w)).

(** The world after [lazy_update_pr_json] on the record [d] at [pr_json],
    whose base repository is [n] and whose number is [num]: one request is
    logged; the record is re-trimmed (not modified) or replaced by the
    trimmed answer, which was a new object at the next free location. *)
Definition refresh_world (w : world) (pr_json : loc) (d : pydict) (n : string)
                         (num : json) : world :=
  set_heap (if not_modified w d
            then <[pr_json := fst (trimmed d)]> (heap w)
            else <[pr_json := refreshed w]>
                   (<[fresh (dom (heap w)) := gh_pull w]> (heap w)))
           (set_trace (trace w ++ [RequestsGet (JStr n) num (if_none_match_of d)]) w).

(** The record that [lazy_update_pr_json] leaves for the record [d]. *)
Definition record_after (w : world) (d : pydict) : pydict :=
  if not_modified w d then fst (trimmed d) else refreshed w.

(** The record says that the pull request is not closed. *)
Definition is_open (d : pydict) : bool :=
  match dict_get d "state" with
  | Some state => negb (is_str "closed" state)
  | None => false
  end.

(** [[lab["name"] for lab in d.get("labels", [])]] *)
Definition label_names (d : pydict) : res (list json) :=
  match py_iter (dict_get_default d "labels" (JList [])) with
  | Raise e => Raise e
  | OK labs => map_res (fun lab => py_getitem lab "name") labs
  end.

(** The record carries a label of that name. *)
Definition carries_label (name : string) (d : pydict) : bool :=
  match label_names d with
  | OK names => existsb (is_str name) names
  | Raise _ => false
  end.

(** The record says that the pull request conflicts with its base. *)
Definition is_dirty (d : pydict) : bool :=
  match dict_get d "mergeable_state" with
  | Some s => is_str "dirty" s
  | None => false
  end.

(** The record says that the pull request is a draft. *)
Definition is_draft (d : pydict) : bool :=
  truthy (dict_get_default d "draft" (JBool false)).

(** The record once [delete_branch] has put the sentinel in place of the
    head reference. *)
Definition branch_deleted (d : pydict) : pydict :=
  match py_setitem_path (JDict d) ["head"] "ref" (JStr "this_is_not_a_branch") with
  | OK (JDict d') => d'
  | _ => d
  end.

(** The command by which [delete_branch] deletes the branch [ref] of the
    fork of the repository [name]. *)
Definition delete_argv (w : world) (name ref : string) : list string :=
  ["git"; "push";
   "https://" +:+ bot_token w +:+ "@github.com/"
     +:+ ((gh_login w +:+ "/") +:+ name) +:+ ".git";
   "--delete"; ref].

(** [d["state"] == "closed" and d.get("merged_at", False)] *)
Definition merged_and_closed (d : pydict) : bool :=
  match dict_get d "state" with
  | Some state => is_str "closed" state
  | None => false
  end
  && truthy (dict_get_default d "merged_at" (JBool false)).

(** The record at a location satisfies the key-subset invariant. *)
Definition record_conforms (w : world) (l : loc) : Prop :=
  exists d, heap w !! l = Some d /\ conforms PR_KEYS_TO_KEEP d = true.

(** The hosted API answers "not modified" to a request that carries the
    header [e]. *)
Definition answers_304 (w : world) (e : option string) : bool :=
  match e with
  | Some e => String.eqb e (gh_etag w)
  | None => false
  end.

(** The world after the request of [lazy_update_pr_json] for the record [d]
    at [pr_json], sent for the repository [n] and the number [num] with the
    header [e]. *)
Definition request_world (w : world) (pr_json : loc) (d : pydict) (n : string)
                         (num : json) (e : option string) : world :=
  set_heap (if answers_304 w e
            then <[pr_json := fst (trimmed d)]> (heap w)
            else <[pr_json := refreshed w]>
                   (<[fresh (dom (heap w)) := gh_pull w]> (heap w)))
           (set_trace (trace w ++ [RequestsGet (JStr n) num e]) w).


(** ** Sample worlds *)

Module Example.

(** A pull request of the bot on foo-feedstock, as the hosted API serves
    it: open, in conflict with its base, labelled "bot-rerun". *)
Definition hosted (state : string) : pydict :=
  [ ("url", JStr "https://api.github.com/repos/conda-forge/foo-feedstock/pulls/7");
    ("id", JNum 1001);
    ("number", JNum 7);
    ("html_url", JStr "https://github.com/conda-forge/foo-feedstock/pull/7");
    ("title", JStr "foo v1.2.3");
    ("state", JStr state);
    ("created_at", JStr "2024-01-01T00:00:00Z");
    ("updated_at", JStr "2024-01-02T00:00:00Z");
    ("closed_at", JNull);
    ("merged_at", JNull);
    ("labels", JList [JDict [("id", JNum 5); ("name", JStr "bot-rerun")]]);
    ("draft", JBool false);
    ("merged", JBool false);
    ("mergeable", JBool false);
    ("mergeable_state", JStr "dirty");
    ("head", JDict [("label", JStr "regro-cf-autotick-bot:1.2.3_h0");
                    ("ref", JStr "1.2.3_h0")]);
    ("base", JDict [("ref", JStr "main");
                    ("repo", JDict [("id", JNum 42);
                                    ("name", JStr "foo-feedstock")])]) ].

(** The record the bot keeps of it: trimmed, with the cache headers of an
    earlier answer. *)
Definition cached (state : string) : pydict :=
  [ ("id", JNum 1001);
    ("number", JNum 7);
    ("html_url", JStr "https://github.com/conda-forge/foo-feedstock/pull/7");
    ("created_at", JStr "2024-01-01T00:00:00Z");
    ("updated_at", JStr "2024-01-01T00:00:00Z");
    ("merged_at", JNull);
    ("closed_at", JNull);
    ("state", JStr state);
    ("mergeable_state", JStr "dirty");
    ("labels", JList [JDict [("id", JNum 5); ("name", JStr "bot-rerun")]]);
    ("merged", JBool false);
    ("draft", JBool false);
    ("mergeable", JBool false);
    ("head", JDict [("ref", JStr "1.2.3_h0")]);
    ("base", JDict [("repo", JDict [("name", JStr "foo-feedstock")])]);
    ("ETag", JStr "W/0");
    ("Last-Modified", JStr "Mon, 01 Jan 2024 00:00:00 GMT") ].

(** The record at location 0; the pull request on the hosted side with
    its commit authors; no directory; every subprocess exits with [code]. *)
Definition world_of (record pull : pydict) (authors : list string) (code : Z)
  : world :=
  {| heap := {[ 0 := record ]};
     trace := [];
     bot_token := "TOKEN";
     run_url := "https://ci.example/run/1";
     gh_login := "regro-cf-autotick-bot";
     gh_pull := pull;
     gh_etag := "W/1";
     gh_last_modified := "Tue, 02 Jan 2024 00:00:00 GMT";
     gh_commit_authors := authors;
     gh_labels := [];
     gh_create_pull := None;
     fs_dirs := [];
     proc := fun _ _ => (code, "") |}.

(** Open on both sides, every commit by the bot. *)
Definition bot_world : world :=
  world_of (cached "open") (hosted "open") ["regro-cf-autotick-bot"] 0.

(** Open on both sides, one commit by somebody else. *)
Definition human_world : world :=
  world_of (cached "open") (hosted "open") ["regro-cf-autotick-bot"; "alice"] 0.

(** The record is closed and was never merged. *)
Definition closed_world : world :=
  world_of (cached "closed") (hosted "closed") ["regro-cf-autotick-bot"] 0.

(** The record says open; the pull request has been closed meanwhile. *)
Definition stale_world : world :=
  world_of (cached "open") (hosted "closed") ["regro-cf-autotick-bot"] 0.

(** A record that was never trimmed. *)
Definition untrimmed_world : world :=
  world_of (hosted "open") (hosted "open") ["regro-cf-autotick-bot"] 0.

(** No clone directory, and git fails. *)
Definition no_fork_world : world :=
  world_of (cached "open") (hosted "open") ["regro-cf-autotick-bot"] 128.

End Example.

(** ** More sample records and worlds *)

Module Sample.







(** A draft. *)
Definition draft (d : pydict) : pydict := dict_set d "draft" (JBool true).







End Sample.

(** * Properties *)

(** ** Dictionaries *)

Lemma dict_get_set_eq (d : pydict) k v : dict_get (dict_set d k v) k = Some v.
Proof.
  induction d as [|[k' v'] r IH]; simpl.
  - by rewrite String.eqb_refl.
  - destruct (String.eqb k' k) eqn:E; simpl; rewrite E; auto.
Qed.

Lemma dict_get_set_ne (d : pydict) k k' v :
  k <> k' -> dict_get (dict_set d k v) k' = dict_get d k'.
Proof.
  intros Hne. induction d as [|[k0 v0] r IH]; simpl.
  - destruct (String.eqb k k') eqn:E; [apply String.eqb_eq in E; congruence|done].
  - destruct (String.eqb k0 k) eqn:E; simpl.
    + apply String.eqb_eq in E; subst k0.
      destruct (String.eqb k k') eqn:E'; [apply String.eqb_eq in E'; congruence|done].
    + by rewrite IH.
Qed.

Lemma dict_set_new (d : pydict) k v :
  dict_get d k = None -> dict_set d k v = d ++ [(k, v)].
Proof.
  induction d as [|[k' v'] r IH]; simpl; [done|].
  destruct (String.eqb k' k); [done|]. intros H. by rewrite IH.
Qed.

Lemma dict_set_set (d : pydict) k v v' :
  dict_set (dict_set d k v) k v' = dict_set d k v'.
Proof.
  induction d as [|[k0 v0] r IH]; simpl.
  - by rewrite String.eqb_refl.
  - destruct (String.eqb k0 k) eqn:E; simpl; rewrite E; [done|by rewrite IH].
Qed.

Lemma dict_get_app (d1 d2 : pydict) k :
  dict_get (d1 ++ d2) k
  = match dict_get d1 k with Some v => Some v | None => dict_get d2 k end.
Proof.
  induction d1 as [|[k' v'] r IH]; simpl; [done|].
  by destruct (String.eqb k' k).
Qed.

Lemma munge_dict_items dest src items :
  _munge_dict dest src (Keys items) = munge_items items dest src.
Proof.
  revert dest. induction items as [|[k v] rest IH]; intros dest; [done|].
  simpl. simpl in IH.
  destruct (py_in k src) as [[|]|]; [|by rewrite IH|done].
  destruct v as [sub|].
  - destruct (py_getitem src k); [|done].
    destruct (_munge_dict [] a sub) as [inner [e|]]; [done|]. by rewrite IH.
  - destruct (py_getitem src k); [|done]. by rewrite IH.
Qed.

(** ** _munge_dict on a shape without repeated keys *)

Lemma distinct_keys_cons k v rest :
  distinct_keys (Keys ((k, v) :: rest)) = true ->
  ~ In k (keys_of rest)
  /\ match v with None => True | Some sub => distinct_keys sub = true end
  /\ distinct_keys (Keys rest) = true.
Proof.
  simpl. intros H.
  apply andb_prop in H as [H H3]. apply andb_prop in H as [H1 H2].
  split; [|split; [by destruct v|done]].
  intros Hin. apply negb_true_iff in H1.
  assert (existsb (fun kv : string * option keyspec => String.eqb (fst kv) k) rest
          = true) as Hex; [|congruence].
  apply existsb_exists. unfold keys_of in Hin. apply in_map_iff in Hin.
  destruct Hin as [kv [Hk Hin]]. exists kv. split; [done|].
  rewrite Hk. apply String.eqb_refl.
Qed.

Lemma unset_in_tail k v rest d :
  unset_in ((k, v) :: rest) d -> unset_in rest d.
Proof. intros H k' Hin. apply H. simpl. by right. Qed.

Lemma unset_in_snoc k v x rest d :
  ~ In k (keys_of rest) ->
  unset_in ((k, v) :: rest) d -> unset_in rest (d ++ [(k, x)]).
Proof.
  intros Hk H k' Hin. rewrite dict_get_app.
  rewrite (H k'); [|simpl; by right]. simpl.
  destruct (String.eqb k k') eqn:E; [|done].
  apply String.eqb_eq in E. by subst.
Qed.

(** What a pass without exception leaves in [dest]: the former entries,
    then entries under keys of the shape. *)
Lemma munge_items_appends items :
  distinct_keys (Keys items) = true ->
  forall acc src R,
    unset_in items acc ->
    munge_items items acc src = (R, None) ->
    exists E, R = acc ++ E /\ forall k, ~ In k (keys_of items) -> dict_get E k = None.
Proof.
  induction items as [|[k v] rest IH]; intros Hd acc src R Hacc Hrun.
  - simpl in Hrun. inversion Hrun; subst. exists []. by rewrite app_nil_r.
  - apply distinct_keys_cons in Hd as (Hk & Hv & Hrest).
    assert (dict_get acc k = None) as Hacck by (apply Hacc; simpl; by left).
    assert (forall x E' ,
               (forall k0, ~ In k0 (keys_of rest) -> dict_get E' k0 = None) ->
               forall k0, ~ In k0 (keys_of ((k, v) :: rest)) ->
                          dict_get ((k, x) :: E') k0 = None) as Hext.
    { intros x E' HE k0 Hk0. simpl.
      destruct (String.eqb k k0) eqn:E.
      - apply String.eqb_eq in E. subst. exfalso. apply Hk0. simpl. by left.
      - apply HE. intros Hin. apply Hk0. simpl. by right. }
    simpl in Hrun.
    destruct (py_in k src) as [[|]|]; [| |done].
    + destruct v as [sub|].
      * destruct (py_getitem src k) as [s|]; [|done].
        destruct (_munge_dict [] s sub) as [inner [e|]]; [done|].
        rewrite dict_set_set, (dict_set_new _ _ _ Hacck) in Hrun.
        apply IH in Hrun as (E' & -> & HE'); [|done|by eapply unset_in_snoc].
        exists ((k, JDict inner) :: E'). split; [by rewrite <- app_assoc|].
        by apply Hext.
      * destruct (py_getitem src k) as [x|]; [|done].
        rewrite (dict_set_new _ _ _ Hacck) in Hrun.
        apply IH in Hrun as (E' & -> & HE'); [|done|by eapply unset_in_snoc].
        exists ((k, x) :: E'). split; [by rewrite <- app_assoc|].
        by apply Hext.
    + apply IH in Hrun as (E & -> & HE); [|done|by eapply unset_in_tail].
      exists E. split; [done|]. intros k0 Hk0. apply HE.
      intros Hin. apply Hk0. simpl. by right.
Qed.

Lemma munge_items_again items :
  Forall (fun kv => match snd kv with
                    | None => True
                    | Some sub => munge_idempotent sub
                    end) items ->
  distinct_keys (Keys items) = true ->
  forall acc src E,
    unset_in items acc ->
    munge_items items acc src = (acc ++ E, None) ->
    forall pre acc2,
      unset_in items pre -> unset_in items acc2 ->
      munge_items items acc2 (JDict (pre ++ E)) = (acc2 ++ E, None).
Proof.
  induction items as [|[k v] rest IH];
    intros Hsub Hd acc src E Hacc Hrun pre acc2 Hpre Hacc2.
  - simpl in *. inversion Hrun as [Heq].
    rewrite <- (app_nil_r acc) in Heq at 1. apply app_inv_head in Heq.
    subst E. by rewrite app_nil_r.
  - pose proof Hd as Hd'.
    apply distinct_keys_cons in Hd as (Hk & Hv & Hrest).
    apply Forall_cons in Hsub as [Hsubk Hsub]. simpl in Hsubk.
    assert (dict_get acc k = None) as Hacck by (apply Hacc; simpl; by left).
    assert (dict_get acc2 k = None) as Hacc2k by (apply Hacc2; simpl; by left).
    assert (dict_get pre k = None) as Hprek by (apply Hpre; simpl; by left).
    (* the pass over the rest, once the entry [(k, x)] has been made *)
    assert (forall x E',
               munge_items rest (acc ++ [(k, x)]) src = (acc ++ (k, x) :: E', None) ->
               munge_items rest (acc2 ++ [(k, x)]) (JDict (pre ++ (k, x) :: E'))
               = (acc2 ++ (k, x) :: E', None)) as Hnext.
    { intros x E' Hrun'.
      replace (pre ++ (k, x) :: E') with ((pre ++ [(k, x)]) ++ E')
        by (by rewrite <- app_assoc).
      replace (acc2 ++ (k, x) :: E') with ((acc2 ++ [(k, x)]) ++ E')
        by (by rewrite <- app_assoc).
      eapply (IH Hsub Hrest (acc ++ [(k, x)]) src E').
      - by eapply unset_in_snoc.
      - rewrite Hrun'. by rewrite <- app_assoc.
      - by eapply unset_in_snoc.
      - by eapply unset_in_snoc. }
    assert (forall x E', dict_get (pre ++ (k, x) :: E') k = Some x) as Hfound.
    { intros x E'. rewrite dict_get_app, Hprek. simpl. by rewrite String.eqb_refl. }
    simpl in Hrun. simpl.
    destruct (py_in k src) as [[|]|]; [| |done].
    + destruct v as [sub|].
      * destruct (py_getitem src k) as [s|]; [|done].
        destruct (_munge_dict [] s sub) as [inner [e|]] eqn:Hinner; [done|].
        rewrite dict_set_set, (dict_set_new _ _ _ Hacck) in Hrun.
        pose proof Hrun as Hshape.
        apply munge_items_appends in Hshape as (E' & Heq & HE');
          [|done|by eapply unset_in_snoc].
        rewrite <- app_assoc in Heq. apply app_inv_head in Heq.
        simpl in Heq. subst E.
        unfold dict_mem. rewrite Hfound.
        rewrite (Hsubk Hv _ _ Hinner).
        rewrite dict_set_set, (dict_set_new _ _ _ Hacc2k).
        by apply Hnext.
      * destruct (py_getitem src k) as [x|]; [|done].
        rewrite (dict_set_new _ _ _ Hacck) in Hrun.
        pose proof Hrun as Hshape.
        apply munge_items_appends in Hshape as (E' & Heq & HE');
          [|done|by eapply unset_in_snoc].
        rewrite <- app_assoc in Heq. apply app_inv_head in Heq.
        simpl in Heq. subst E.
        unfold dict_mem. rewrite Hfound.
        rewrite (dict_set_new _ _ _ Hacc2k).
        by apply Hnext.
    + pose proof Hrun as Hshape.
      apply munge_items_appends in Hshape as (E' & Heq & HE');
        [|done|by eapply unset_in_tail].
      apply app_inv_head in Heq. subst E'.
      unfold dict_mem. rewrite dict_get_app, Hprek, (HE' k Hk).
      eapply IH; eauto using unset_in_tail.
Qed.

Lemma munge_dict_idempotent keys : munge_idempotent keys.
Proof.
  induction keys as [items Hsub] using keyspec_induction.
  intros Hd src R Hrun. rewrite munge_dict_items in *.
  apply (munge_items_again items Hsub Hd [] src R
           ltac:(done) Hrun [] [] ltac:(done) ltac:(done)).
Qed.

(** ** The key-subset invariant is kept by _munge_dict *)

Lemma conforms_admits items d :
  conforms (Keys items) d = forallb (admits items) d.
Proof.
  induction d as [|[k x] r IHd]; [done|].
  simpl in *. rewrite IHd. clear IHd. f_equal. unfold admits. simpl.
  induction items as [|[k' v] rest IH]; simpl; [done|].
  destruct (String.eqb k' k); [by destruct v|done].
Qed.

Lemma conforms_dict_set items d k x :
  conforms (Keys items) d = true ->
  admits items (k, x) = true ->
  conforms (Keys items) (dict_set d k x) = true.
Proof.
  rewrite !conforms_admits. intros Hd Hx.
  induction d as [|[k' x'] r IH]; simpl.
  - by rewrite Hx.
  - simpl in Hd. apply andb_prop in Hd as [H1 H2].
    destruct (String.eqb k' k) eqn:E; simpl.
    + apply String.eqb_eq in E. subst k'. by rewrite Hx, H2.
    + by rewrite H1, IH.
Qed.

Lemma spec_lookup_in items k v :
  distinct_keys (Keys items) = true ->
  In (k, v) items -> spec_lookup items k = Some v.
Proof.
  induction items as [|[k' v'] rest IH]; intros Hd Hin; [done|].
  apply distinct_keys_cons in Hd as (Hk & _ & Hrest). simpl.
  destruct Hin as [Heq|Hin].
  - inversion Heq; subst. by rewrite String.eqb_refl.
  - destruct (String.eqb k' k) eqn:E; [|by apply IH].
    apply String.eqb_eq in E. subst k'. exfalso. apply Hk.
    unfold keys_of. apply in_map_iff. by exists (k, v).
Qed.

Lemma munge_items_conforms items0 items :
  (forall k v, In (k, v) items -> spec_lookup items0 k = Some v) ->
  Forall (fun kv => match snd kv with
                    | None => True
                    | Some sub => distinct_keys sub = true /\ munge_conforms sub
                    end) items ->
  forall acc src,
    conforms (Keys items0) acc = true ->
    conforms (Keys items0) (fst (munge_items items acc src)) = true.
Proof.
  induction items as [|[k v] rest IH]; intros Hin Hsub acc src Hacc; [done|].
  apply Forall_cons in Hsub as [Hsubk Hsub]. simpl in Hsubk.
  assert (spec_lookup items0 k = Some v) as Hk by (apply Hin; by left).
  assert (forall k0 v0, In (k0, v0) rest -> spec_lookup items0 k0 = Some v0)
    as Hin' by (intros; apply Hin; by right).
  simpl. destruct (py_in k src) as [[|]|]; [| by apply IH | done].
  destruct v as [sub|].
  - destruct Hsubk as [Hdsub Hsubk].
    assert (forall inner, conforms sub inner = true ->
              conforms (Keys items0)
                       (dict_set (dict_set acc k (JDict [])) k (JDict inner)) = true)
      as Hput.
    { intros inner Hinner. rewrite dict_set_set. apply conforms_dict_set; [done|].
      unfold admits. simpl. by rewrite Hk. }
    destruct (py_getitem src k) as [s|]; simpl.
    + pose proof (Hsubk Hdsub [] s) as Hinner.
      destruct (_munge_dict [] s sub) as [inner [e|]]; simpl in *.
      * apply Hput, Hinner. by destruct sub.
      * apply IH; [done|done|]. apply Hput, Hinner. by destruct sub.
    + apply conforms_dict_set; [done|]. unfold admits. simpl. rewrite Hk.
      by destruct sub.
  - destruct (py_getitem src k) as [x|]; simpl; [|done].
    apply IH; [done|done|]. apply conforms_dict_set; [done|].
    unfold admits. simpl. by rewrite Hk.
Qed.

Lemma munge_dict_conforms keys : munge_conforms keys.
Proof.
  induction keys as [items Hsub] using keyspec_induction.
  intros Hd dest src Hdest. rewrite munge_dict_items.
  apply munge_items_conforms; [|clear Hdest|done].
  - intros k v. by apply spec_lookup_in.
  - induction items as [|[k v] rest IH]; [done|].
    apply distinct_keys_cons in Hd as (_ & Hv & Hrest).
    apply Forall_cons in Hsub as [Hsubk Hsub].
    apply Forall_cons. split; [|by apply IH].
    simpl in *. by destruct v.
Qed.

(** ** Running the monad *)

Arguments _munge_dict : simpl never.
Arguments munge_items : simpl never.
Arguments bind : simpl never.
Arguments ret : simpl never.
Arguments load : simpl never.
Arguments store : simpl never.
Arguments emit : simpl never.
Arguments ask : simpl never.
Arguments lift : simpl never.
Arguments raise : simpl never.
Arguments alloc : simpl never.
Arguments modify : simpl never.

Lemma bind_bind {A B C} (m : M A) (f : A -> M B) (g : B -> M C) w :
  bind (bind m f) g w = bind m (fun x => bind (f x) g) w.
Proof. unfold bind. by destruct (m w) as [[a|e] w']. Qed.

Lemma bind_ret {A B} (a : A) (k : A -> M B) w : bind (ret a) k w = k a w.
Proof. done. Qed.

Lemma bind_lift_OK {A B} (a : A) (k : A -> M B) w : bind (lift (OK a)) k w = k a w.
Proof. done. Qed.



Lemma bind_ask {A B} (f : world -> A) (k : A -> M B) w :
  bind (ask f) k w = k (f w) w.
Proof. done. Qed.

Lemma bind_emit {B} ev (k : unit -> M B) w :
  bind (emit ev) k w = k tt (set_trace (trace w ++ [ev]) w).
Proof. done. Qed.

Lemma bind_modify {B} f (k : unit -> M B) w : bind (modify f) k w = k tt (f w).
Proof. done. Qed.

Lemma bind_store {B} l d (k : unit -> M B) w :
  bind (store l d) k w = k tt (set_heap (<[l := d]> (heap w)) w).
Proof. done. Qed.

Lemma bind_alloc {B} d (k : loc -> M B) w :
  bind (alloc d) k w
  = k (fresh (dom (heap w))) (set_heap (<[fresh (dom (heap w)) := d]> (heap w)) w).
Proof. done. Qed.

Lemma bind_load {B} l d (k : pydict -> M B) w :
  heap w !! l = Some d -> bind (load l) k w = k d w.
Proof. intros H. unfold bind, load. by rewrite H. Qed.

Lemma bind_load_dangling {B} l (k : pydict -> M B) w :
  heap w !! l = None -> bind (load l) k w = (Raise DanglingReference, w).
Proof. intros H. unfold bind, load. by rewrite H. Qed.

Lemma bind_OK {A B} (m : M A) (k : A -> M B) w a w' :
  m w = (OK a, w') -> bind m k w = k a w'.
Proof. intros H. unfold bind. by rewrite H. Qed.

Lemma bind_Raise {A B} (m : M A) (k : A -> M B) w e w' :
  m w = (Raise e, w') -> bind m k w = (Raise e, w').
Proof. intros H. unfold bind. by rewrite H. Qed.

(** ** trim_pr_json_keys *)

Lemma distinct_PR_KEYS_TO_KEEP : distinct_keys PR_KEYS_TO_KEEP = true.
Proof. vm_compute. reflexivity. Qed.

Lemma trim_pr_json_keys_run w l src :
  trim_pr_json_keys l src w
  = match heap w !! l with
    | None => (Raise DanglingReference, w)
    | Some d =>
        match trim_source w l d src with
        | None => (Raise DanglingReference, set_heap (<[l := []]> (heap w)) w)
        | Some c =>
            (match snd (trimmed c) with Some e => Raise e | None => OK l end,
             set_heap (<[l := fst (trimmed c)]> (heap w)) w)
        end
    end.
Proof.
  unfold trim_pr_json_keys.
  destruct (heap w !! l) as [d|] eqn:Hl.
  - assert (forall c w1, heap w1 !! l = Some [] ->
       bind (load l) (fun dest =>
         let '(dest', err) := _munge_dict dest (JDict c) PR_KEYS_TO_KEEP in
         bind (store l dest') (fun _ =>
           match err with Some e => raise e | None => ret l end)) w1
       = (match snd (trimmed c) with Some e => Raise e | None => OK l end,
          set_heap (<[l := fst (trimmed c)]> (heap w1)) w1)) as Hrest.
    { intros c w1 H1. rewrite (bind_load _ _ _ _ H1).
      unfold trimmed. destruct (_munge_dict [] (JDict c) PR_KEYS_TO_KEEP) as [R [e|]];
        by rewrite bind_store. }
    destruct src as [s|]; simpl.
    + rewrite bind_ret, (bind_load _ _ _ _ Hl), bind_store.
      destruct (<[l:=[]]> (heap w) !! s) as [c|] eqn:Hs.
      * rewrite (bind_load _ c); [|done].
        rewrite Hrest; [|simpl; by rewrite lookup_insert_eq].
        simpl. by rewrite insert_insert_eq.
      * by rewrite bind_load_dangling.
    + rewrite bind_bind, (bind_load _ _ _ _ Hl), bind_ret.
      rewrite (bind_load _ _ _ _ Hl), bind_store, bind_ret.
      rewrite Hrest; [|simpl; by rewrite lookup_insert_eq].
      simpl. by rewrite insert_insert_eq.
  - destruct src as [s|]; simpl.
    + by rewrite bind_ret, bind_load_dangling.
    + by rewrite bind_bind, bind_load_dangling.
Qed.

Lemma trimmed_idempotent d R :
  trimmed d = (R, None) -> trimmed R = (R, None).
Proof. apply munge_dict_idempotent, distinct_PR_KEYS_TO_KEEP. Qed.

Lemma trimmed_conforms d : conforms PR_KEYS_TO_KEEP (fst (trimmed d)) = true.
Proof. by apply munge_dict_conforms; [apply distinct_PR_KEYS_TO_KEEP|]. Qed.

(** ** What trimming keeps *)

Arguments project_items : simpl never.

Lemma spec_lookup_notin items k :
  ~ In k (keys_of items) -> spec_lookup items k = None.
Proof.
  induction items as [|[k' v] rest IH]; intros Hk; [done|]. simpl.
  destruct (String.eqb k' k) eqn:E.
  - apply String.eqb_eq in E. subst. exfalso. apply Hk. simpl. by left.
  - apply IH. intros Hin. apply Hk. simpl. by right.
Qed.

Lemma munge_items_project items :
  distinct_keys (Keys items) = true ->
  forall acc src,
    unset_in items acc ->
    (forall k sub s, In (k, Some sub) items -> dict_get src k = Some s ->
                     snd (_munge_dict [] s sub) = None) ->
    munge_items items acc (JDict src) = (acc ++ project_items items src, None).
Proof.
  induction items as [|[k v] rest IH]; intros Hd acc src Hacc Hsub.
  - unfold munge_items, project_items. by rewrite app_nil_r.
  - apply distinct_keys_cons in Hd as (Hk & Hv & Hrest).
    assert (dict_get acc k = None) as Hacck by (apply Hacc; simpl; by left).
    assert (forall k0 sub s, In (k0, Some sub) rest -> dict_get src k0 = Some s ->
                             snd (_munge_dict [] s sub) = None) as Hsub'.
    { intros k0 sub s Hin. apply Hsub. by right. }
    unfold munge_items, project_items. fold munge_items. fold project_items.
    simpl. unfold dict_mem.
    destruct (dict_get src k) as [x|] eqn:Hx.
    + destruct v as [sub|].
      * pose proof (Hsub k sub x (or_introl eq_refl) Hx) as Hnone.
        destruct (_munge_dict [] x sub) as [inner err]. simpl in Hnone. subst err.
        rewrite dict_set_set, (dict_set_new _ _ _ Hacck).
        rewrite IH; [|done|by eapply unset_in_snoc|done].
        by rewrite <- app_assoc.
      * rewrite (dict_set_new _ _ _ Hacck).
        rewrite IH; [|done|by eapply unset_in_snoc|done].
        by rewrite <- app_assoc.
    + apply IH; [done|by eapply unset_in_tail|done].
Qed.

Lemma dict_get_project items src k :
  dict_get (project_items items src) k
  = match spec_lookup items k with
    | None => None
    | Some v =>
        match dict_get src k with
        | None => None
        | Some x => Some match v with
                         | None => x
                         | Some sub => JDict (fst (_munge_dict [] x sub))
                         end
        end
    end.
Proof.
  induction items as [|[k' v] rest IH]; [done|].
  unfold project_items. fold project_items. simpl.
  destruct (String.eqb k' k) eqn:E.
  - apply String.eqb_eq in E. subst k'.
    destruct (dict_get src k) as [x|] eqn:Hx; simpl.
    + by rewrite String.eqb_refl.
    + rewrite IH. by destruct (spec_lookup rest k).
  - destruct (dict_get src k') as [x|]; simpl; [by rewrite E|done].
Qed.

Lemma pull_shaped_inv d :
  pull_shaped d = true -> exists n r num, shaped d n r num.
Proof.
  unfold pull_shaped, str_at, dict_mem. simpl. intros H.
  apply andb_prop in H as [H He]. apply andb_prop in H as [H Hnum].
  apply andb_prop in H as [Hn Hr].
  destruct (dict_get d "base") as [[| | | |?|b]|] eqn:Hb; try done. simpl in Hn.
  destruct (dict_get b "repo") as [[| | | |?|rp]|] eqn:Hrp; try done. simpl in Hn.
  destruct (dict_get rp "name") as [[| | |n|?|?]|] eqn:Hname; try done.
  destruct (dict_get d "head") as [[| | | |?|h]|] eqn:Hh; try done. simpl in Hr.
  destruct (dict_get h "ref") as [[| | |r|?|?]|] eqn:Href; try done.
  destruct (dict_get d "number") as [num|] eqn:Hnumber; try done.
  exists n, r, num. split; eauto.
  - by apply negb_true_iff.
  - destruct (dict_get d "ETag") as [[| | |e|?|?]|]; try done; eauto.
Qed.

Lemma shaped_pull_shaped d n r num : shaped d n r num -> pull_shaped d = true.
Proof.
  intros [(b & rp & Hb & Hrp & Hn) Hc (h & Hh & Hr) Hnum He].
  unfold pull_shaped, str_at, dict_mem. simpl.
  rewrite Hb. simpl. rewrite Hrp. simpl. rewrite Hn, Hc. simpl.
  rewrite Hh. simpl. rewrite Hr, Hnum. simpl.
  by destruct He as [->|[e ->]].
Qed.

Lemma munge_ref h r :
  dict_get h "ref" = Some r ->
  _munge_dict [] (JDict h) (Keys [("ref", None)]) = ([("ref", r)], None).
Proof.
  intros H. rewrite munge_dict_items. unfold munge_items. simpl.
  unfold dict_mem. by rewrite H.
Qed.

Lemma munge_repo_name b rp n :
  dict_get b "repo" = Some (JDict rp) ->
  dict_get rp "name" = Some n ->
  _munge_dict [] (JDict b) (Keys [("repo", Some (Keys [("name", None)]))])
  = ([("repo", JDict [("name", n)])], None).
Proof.
  intros Hrp Hn. rewrite munge_dict_items. unfold munge_items. simpl.
  unfold dict_mem. rewrite Hrp. rewrite munge_dict_items. unfold munge_items.
  simpl. unfold dict_mem. by rewrite Hn.
Qed.

Lemma trimmed_shaped_project d n r num :
  shaped d n r num ->
  trimmed d = (project_items (keyspec_items PR_KEYS_TO_KEEP) d, None).
Proof.
  intros [(b & rp & Hb & Hrp & Hn) Hc (h & Hh & Hr) Hnum He].
  unfold trimmed, PR_KEYS_TO_KEEP. rewrite munge_dict_items.
  rewrite munge_items_project; [done|apply distinct_PR_KEYS_TO_KEEP|done|].
  intros k sub s Hin Hs. simpl in Hin.
  repeat (destruct Hin as [Hin|Hin]; [try discriminate Hin|]); [| |done].
  - inversion Hin; subst. rewrite Hh in Hs. inversion Hs; subst.
    by rewrite (munge_ref _ _ Hr).
  - inversion Hin; subst. rewrite Hb in Hs. inversion Hs; subst.
    by rewrite (munge_repo_name _ _ _ Hrp Hn).
Qed.

(** The trimmed record, read key by key. *)
Lemma trimmed_shaped_get d n r num k :
  shaped d n r num ->
  dict_get (fst (trimmed d)) k
  = match spec_lookup (keyspec_items PR_KEYS_TO_KEEP) k with
    | None => None
    | Some None => dict_get d k
    | Some (Some _) =>
        if String.eqb k "head" then Some (JDict [("ref", JStr r)])
        else Some (JDict [("repo", JDict [("name", JStr n)])])
    end.
Proof.
  intros Hs. rewrite (trimmed_shaped_project _ _ _ _ Hs). cbn [fst].
  rewrite dict_get_project.
  destruct Hs as [(b & rp & Hb & Hrp & Hn) Hc (h & Hh & Hr) Hnum He].
  destruct (spec_lookup (keyspec_items PR_KEYS_TO_KEEP) k) as [[sub|]|] eqn:Hk;
    [|by destruct (dict_get d k)|done].
  unfold PR_KEYS_TO_KEEP, keyspec_items in Hk. cbn [spec_lookup] in Hk.
  repeat match type of Hk with
         | (if String.eqb ?a k then _ else _) = _ =>
             destruct (String.eqb a k) eqn:?E; [try discriminate Hk|]
         end; try discriminate Hk.
  all: match goal with
       | E : String.eqb _ ?x = true |- _ => apply String.eqb_eq in E; subst x
       end; inversion Hk; subst; simpl.
  - by rewrite Hh, (munge_ref _ _ Hr).
  - by rewrite Hb, (munge_repo_name _ _ _ Hrp Hn).
Qed.

Lemma trimmed_shaped_ok d n r num : shaped d n r num -> snd (trimmed d) = None.
Proof. intros Hs. by rewrite (trimmed_shaped_project _ _ _ _ Hs). Qed.

(** ** lazy_update_pr_json *)

Arguments trimmed : simpl never.
Arguments trim_pr_json_keys : simpl never.

Lemma bind_getitem {B} l k d v (K : json -> M B) w :
  heap w !! l = Some d -> dict_get d k = Some v ->
  bind (getitem l k) K w = K v w.
Proof.
  intros Hl Hk. unfold getitem. rewrite bind_bind, (bind_load _ _ _ _ Hl).
  simpl. by rewrite Hk, bind_lift_OK.
Qed.

Lemma bind_getitem_path {B} l path d v (K : json -> M B) w :
  heap w !! l = Some d -> py_getitem_path (JDict d) path = OK v ->
  bind (getitem_path l path) K w = K v w.
Proof.
  intros Hl Hk. unfold getitem_path. rewrite bind_bind, (bind_load _ _ _ _ Hl).
  by rewrite Hk, bind_lift_OK.
Qed.

Lemma bind_get_default {B} l k dflt d (K : json -> M B) w :
  heap w !! l = Some d ->
  bind (get_default l k dflt) K w = K (dict_get_default d k dflt) w.
Proof.
  intros Hl. unfold get_default. by rewrite bind_bind, (bind_load _ _ _ _ Hl), bind_ret.
Qed.

Lemma bind_setitem {B} l k v d (K : unit -> M B) w :
  heap w !! l = Some d ->
  bind (setitem l k v) K w = K tt (set_heap (<[l := dict_set d k v]> (heap w)) w).
Proof.
  intros Hl. unfold setitem. by rewrite bind_bind, (bind_load _ _ _ _ Hl), bind_store.
Qed.

Lemma bind_setitem_path {B} l path k x d d' (K : unit -> M B) w :
  heap w !! l = Some d ->
  py_setitem_path (JDict d) path k x = OK (JDict d') ->
  bind (setitem_path l path k x) K w = K tt (set_heap (<[l := d']> (heap w)) w).
Proof.
  intros Hl Hk. unfold setitem_path. rewrite bind_bind, (bind_load _ _ _ _ Hl).
  by rewrite Hk, bind_bind, bind_lift_OK, bind_store.
Qed.

Lemma fresh_loc_ne (h : gmap loc pydict) l d : h !! l = Some d -> fresh (dom h) <> l.
Proof.
  intros Hl Heq. pose proof (is_fresh (dom h)) as Hf. rewrite Heq in Hf.
  apply Hf. apply elem_of_dom. eauto.
Qed.

Lemma shaped_name_path d n r num :
  shaped d n r num -> py_getitem_path (JDict d) ["base"; "repo"; "name"] = OK (JStr n).
Proof.
  intros [(b & rp & Hb & Hrp & Hn) _ _ _ _]. simpl.
  rewrite Hb. simpl. rewrite Hrp. simpl. by rewrite Hn.
Qed.

Lemma shaped_ref_path d n r num :
  shaped d n r num -> py_getitem_path (JDict d) ["head"; "ref"] = OK (JStr r).
Proof.
  intros [_ _ (h & Hh & Hr) _ _]. simpl. rewrite Hh. simpl. by rewrite Hr.
Qed.

Ltac mstep :=
  first [ rewrite bind_ret | rewrite bind_lift_OK | rewrite bind_bind
        | rewrite bind_ask | rewrite bind_emit | rewrite bind_store
        | rewrite bind_alloc | rewrite bind_modify ].
Ltac mrun := repeat first [mstep | progress cbn | progress unfold dict_mem].

Lemma requests_get_run {B} name number d (K : response -> M B) w :
  bind (requests_get name number (option_map JStr (if_none_match_of d))) K w
  = K (if not_modified w d
       then Response 304 [] (gh_etag w) (gh_last_modified w)
       else Response 200 (gh_pull w) (gh_etag w) (gh_last_modified w))
      (set_trace (trace w ++ [RequestsGet name number (if_none_match_of d)]) w).
Proof.
  unfold requests_get, not_modified.
  destruct (if_none_match_of d) as [e|]; simpl; mrun; [|done].
  by destruct (String.eqb e (gh_etag w)); mrun.
Qed.

Lemma lazy_update_pr_json_run w l d n r num n' r' num' :
  heap w !! l = Some d ->
  shaped d n r num ->
  shaped (gh_pull w) n' r' num' ->
  lazy_update_pr_json l false w = (OK l, refresh_world w l d n num).
Proof.
  intros Hl Hs Hr.
  pose proof (shaped_name_path _ _ _ _ Hs) as Hname.
  pose proof Hs as [(b & rp & Hb & Hrp & Hn) Hc (h & Hh & Href) Hnum He].
  unfold lazy_update_pr_json.
  rewrite (bind_load _ _ _ _ Hl).
  assert (forall K : option json -> M loc,
    bind (if negb false && dict_mem d "ETag"
          then bind (getitem l "ETag") (fun e => ret (Some e)) else ret None) K w
    = K (option_map JStr (if_none_match_of d)) w) as Hinm.
  { intros K. unfold dict_mem, if_none_match_of. simpl.
    destruct He as [He|[e He]]; rewrite He; simpl.
    - by rewrite bind_ret.
    - by rewrite bind_bind, (bind_getitem _ _ _ _ _ _ Hl He), bind_ret. }
  rewrite Hinm. clear Hinm.
  rewrite (bind_getitem _ _ _ _ _ _ Hl Hb). simpl. unfold dict_mem. rewrite Hrp.
  mrun. rewrite Hn. mrun.
  rewrite (bind_getitem_path _ _ _ _ _ _ Hl Hname). simpl. rewrite Hc.
  mrun.
  rewrite (bind_getitem_path _ _ _ _ _ _ Hl Hname).
  rewrite (bind_getitem _ _ _ _ _ _ Hl Hnum).
  rewrite requests_get_run.
  unfold refresh_world. destruct (not_modified w d); simpl.
  - rewrite trim_pr_json_keys_run. simpl. rewrite Hl. simpl.
    by rewrite (trimmed_shaped_ok _ _ _ _ Hs).
  - pose proof (fresh_loc_ne _ _ _ Hl) as Hfresh.
    mrun. erewrite bind_OK.
    2:{ rewrite trim_pr_json_keys_run. simpl.
        rewrite lookup_insert_ne, Hl by done. simpl.
        rewrite lookup_insert_ne, lookup_insert_eq by done.
        by rewrite (trimmed_shaped_ok _ _ _ _ Hr). }
    erewrite bind_setitem; [|simpl; by rewrite lookup_insert_eq].
    erewrite bind_setitem; [|simpl; by rewrite lookup_insert_eq].
    unfold ret, refreshed. simpl. by rewrite !insert_insert_eq.
Qed.

(** ** The record after a refresh *)

Lemma trimmed_shaped d n r num : shaped d n r num -> shaped (fst (trimmed d)) n r num.
Proof.
  intros Hs. pose proof Hs as [_ Hc _ Hnum He].
  split; [| done | | |]; rewrite ?(trimmed_shaped_get _ _ _ _ _ Hs); simpl; eauto.
Qed.

Lemma shaped_dict_set d n r num k v :
  k <> "base" -> k <> "head" -> k <> "number" -> k <> "ETag" ->
  shaped d n r num -> shaped (dict_set d k v) n r num.
Proof.
  intros H1 H2 H3 H4 [Hb Hc Hh Hnum He].
  split; rewrite ?dict_get_set_ne by done; done.
Qed.

Lemma shaped_set_etag d n r num e :
  shaped d n r num -> shaped (dict_set d "ETag" (JStr e)) n r num.
Proof.
  intros [Hb Hc Hh Hnum He].
  split; rewrite ?dict_get_set_ne by done; try done.
  right. exists e. apply dict_get_set_eq.
Qed.

Lemma refreshed_shaped w n r num :
  shaped (gh_pull w) n r num -> shaped (refreshed w) n r num.
Proof.
  intros Hs. unfold refreshed.
  by apply shaped_dict_set, shaped_set_etag, trimmed_shaped.
Qed.

Lemma record_after_shaped w d n r num n' r' num' :
  shaped d n r num -> shaped (gh_pull w) n' r' num' ->
  exists n1 r1 num1, shaped (record_after w d) n1 r1 num1.
Proof.
  intros Hs Hr. unfold record_after. destruct (not_modified w d).
  - exists n, r, num. by apply trimmed_shaped.
  - exists n', r', num'. by apply refreshed_shaped.
Qed.

Lemma heap_refresh_world w l d n num :
  heap (refresh_world w l d n num) !! l = Some (record_after w d).
Proof.
  unfold refresh_world, record_after.
  destruct (not_modified w d); simpl; apply lookup_insert_eq.
Qed.

(** After a refresh the record carries the current ETag. *)
Lemma record_after_etag w d n r num :
  shaped d n r num ->
  if_none_match_of (record_after w d) = Some (gh_etag w).
Proof.
  intros Hs. unfold record_after, not_modified, if_none_match_of.
  destruct (dict_get d "ETag") as [[| | |e|?|?]|] eqn:He; simpl;
    try (unfold refreshed;
         by rewrite dict_get_set_ne, dict_get_set_eq by done).
  destruct (String.eqb e (gh_etag w)) eqn:E.
  - apply String.eqb_eq in E. subst e.
    rewrite (trimmed_shaped_get _ _ _ _ _ Hs). simpl. by rewrite He.
  - unfold refreshed. by rewrite dict_get_set_ne, dict_get_set_eq by done.
Qed.

(** The keys that the rules read are kept as they are. *)
Lemma record_after_get w d n r num n' r' num' k :
  shaped d n r num -> shaped (gh_pull w) n' r' num' ->
  spec_lookup (keyspec_items PR_KEYS_TO_KEEP) k = Some None ->
  k <> "ETag" -> k <> "Last-Modified" ->
  dict_get (record_after w d) k
  = dict_get (if not_modified w d then d else gh_pull w) k.
Proof.
  intros Hs Hr Hk H1 H2. unfold record_after. destruct (not_modified w d).
  - by rewrite (trimmed_shaped_get _ _ _ _ _ Hs), Hk.
  - unfold refreshed. rewrite !dict_get_set_ne by done.
    by rewrite (trimmed_shaped_get _ _ _ _ _ Hr), Hk.
Qed.

Lemma is_open_ext d1 d2 :
  dict_get d1 "state" = dict_get d2 "state" -> is_open d1 = is_open d2.
Proof. unfold is_open. by intros ->. Qed.

Lemma carries_label_ext name d1 d2 :
  dict_get d1 "labels" = dict_get d2 "labels" ->
  carries_label name d1 = carries_label name d2.
Proof. unfold carries_label, label_names, dict_get_default. by intros ->. Qed.

Lemma is_dirty_ext d1 d2 :
  dict_get d1 "mergeable_state" = dict_get d2 "mergeable_state" ->
  is_dirty d1 = is_dirty d2.
Proof. unfold is_dirty. by intros ->. Qed.

Lemma is_draft_ext d1 d2 :
  dict_get d1 "draft" = dict_get d2 "draft" -> is_draft d1 = is_draft d2.
Proof. unfold is_draft, dict_get_default. by intros ->. Qed.

(** ** delete_branch, get_pr_obj_from_pr_json and the conditions of the rules *)

Lemma branch_deleted_shaped d n r num :
  shaped d n r num -> shaped (branch_deleted d) n "this_is_not_a_branch" num.
Proof.
  intros [Hb Hc (h & Hh & Hr) Hnum He]. unfold branch_deleted. simpl.
  rewrite Hh. simpl.
  split; rewrite ?dict_get_set_ne by done; try done.
  exists (dict_set h "ref" (JStr "this_is_not_a_branch")).
  by rewrite !dict_get_set_eq.
Qed.

Lemma branch_deleted_get d k :
  k <> "head" -> dict_get (branch_deleted d) k = dict_get d k.
Proof.
  intros Hk. unfold branch_deleted. simpl.
  destruct (dict_get d "head") as [[| | | |?|h]|]; simpl; try done.
  by rewrite dict_get_set_ne.
Qed.

Lemma delete_branch_run {B} l d n r num (K : unit -> M B) w :
  heap w !! l = Some d ->
  shaped d n r num ->
  bind (delete_branch l false) K w
  = K tt (set_heap (<[l := branch_deleted d]> (heap w))
            (set_trace (trace w ++ [GhMe; DoctrRun (delete_argv w n r)]) w)).
Proof.
  intros Hl Hs.
  pose proof (shaped_name_path _ _ _ _ Hs) as Hname.
  pose proof (shaped_ref_path _ _ _ _ Hs) as Href.
  destruct Hs as [Hb Hc (h & Hh & Hr) Hnum He].
  unfold delete_branch. rewrite bind_bind.
  rewrite (bind_getitem_path _ _ _ _ _ _ Hl Href).
  rewrite bind_bind, (bind_getitem_path _ _ _ _ _ _ Hl Hname).
  unfold gh_me_login, doctr_run. mrun.
  erewrite bind_setitem_path; [|done|simpl; by rewrite Hh].
  unfold branch_deleted, delete_argv. simpl. rewrite Hh. simpl.
  by rewrite <- app_assoc.
Qed.

Lemma get_pr_obj_from_pr_json_run {B} l d n r num (K : unit -> M B) w :
  heap w !! l = Some d ->
  shaped d n r num ->
  bind (get_pr_obj_from_pr_json l) K w
  = K tt (set_trace (trace w ++ [GhRepository "conda-forge" (JStr n);
                                 GhPullRequest num]) w).
Proof.
  intros Hl Hs.
  pose proof (shaped_name_path _ _ _ _ Hs) as Hname.
  destruct Hs as [Hb Hc Hh Hnum He].
  unfold get_pr_obj_from_pr_json. rewrite bind_bind.
  rewrite (bind_getitem_path _ _ _ _ _ _ Hl Hname). mrun.
  erewrite bind_getitem; [|simpl; exact Hl|exact Hnum].
  mrun. by rewrite <- app_assoc.
Qed.

Lemma open_with_rerun_label_run {B} l d (K : bool -> M B) w :
  heap w !! l = Some d ->
  is_open d = true ->
  carries_label "bot-rerun" d = true ->
  bind (open_with_rerun_label l) K w = K true w.
Proof.
  intros Hl Ho Hc. unfold open_with_rerun_label, is_open in *.
  destruct (dict_get d "state") as [state|] eqn:Hstate; [|done].
  rewrite bind_bind, (bind_getitem _ _ _ _ _ _ Hl Hstate). rewrite Ho.
  rewrite bind_bind, (bind_get_default _ _ _ _ _ _ Hl).
  unfold carries_label, label_names in Hc.
  destruct (py_iter (dict_get_default d "labels" (JList []))) as [labs|]; [|done].
  mrun. destruct (map_res _ labs) as [names|]; [|done].
  mrun. by rewrite Hc.
Qed.

Lemma open_with_rerun_label_closed {B} l d (K : bool -> M B) w :
  heap w !! l = Some d ->
  dict_get d "state" = Some (JStr "closed") ->
  bind (open_with_rerun_label l) K w = K false w.
Proof.
  intros Hl Hstate. unfold open_with_rerun_label.
  rewrite bind_bind, (bind_getitem _ _ _ _ _ _ Hl Hstate). by mrun.
Qed.

Lemma open_and_dirty_run {B} l d (K : bool -> M B) w :
  heap w !! l = Some d ->
  is_open d = true ->
  is_dirty d = true ->
  bind (open_and_dirty l) K w = K true w.
Proof.
  intros Hl Ho Hd. unfold open_and_dirty, is_open, is_dirty in *.
  destruct (dict_get d "state") as [state|] eqn:Hstate; [|done].
  destruct (dict_get d "mergeable_state") as [ms|] eqn:Hms; [|done].
  rewrite bind_bind, (bind_getitem _ _ _ _ _ _ Hl Hstate). rewrite Ho.
  rewrite bind_bind, (bind_getitem _ _ _ _ _ _ Hl Hms). mrun. by rewrite Hd.
Qed.

Lemma open_and_dirty_closed {B} l d (K : bool -> M B) w :
  heap w !! l = Some d ->
  dict_get d "state" = Some (JStr "closed") ->
  bind (open_and_dirty l) K w = K false w.
Proof.
  intros Hl Hstate. unfold open_and_dirty.
  rewrite bind_bind, (bind_getitem _ _ _ _ _ _ Hl Hstate). by mrun.
Qed.

Lemma string_length_append s1 s2 :
  String.length (s1 +:+ s2) = String.length s1 + String.length s2.
Proof. induction s1 as [|c s1 IH]; simpl; [done|by rewrite IH]. Qed.

(** A changed ETag differs from the former one. *)
Lemma append_quote_neq e : String.eqb e (e +:+ "'") = false.
Proof.
  apply String.eqb_neq. intros Heq.
  apply (f_equal String.length) in Heq.
  rewrite string_length_append in Heq. simpl in Heq. lia.
Qed.

(** ** The closing sequence of the two rules *)

Lemma shaped_projections d n r num :
  shaped d n r num -> repo_name_of d = n /\ number_of d = num /\ ref_of d = r.
Proof.
  intros Hs. unfold repo_name_of, number_of, ref_of, str_at, dict_get_default.
  rewrite (shaped_name_path _ _ _ _ Hs), (shaped_ref_path _ _ _ _ Hs).
  by destruct Hs as [_ _ _ -> _].
Qed.

Lemma if_none_match_of_ext d1 d2 :
  dict_get d1 "ETag" = dict_get d2 "ETag" -> if_none_match_of d1 = if_none_match_of d2.
Proof. unfold if_none_match_of. by intros ->. Qed.

Arguments refreshed : simpl never.
Arguments record_after : simpl never.
Arguments lazy_update_pr_json : simpl never.
Arguments delete_branch : simpl never.
Arguments delete_argv : simpl never.

Lemma bind_seq4_OK {A B} (m1 m2 m3 : M unit) (m4 : M A) (K : A -> M B) w a w' :
  (m1 ;; m2 ;; m3 ;; m4) w = (OK a, w') ->
  bind m1 (fun _ => bind m2 (fun _ => bind m3 (fun _ => bind m4 K))) w = K a w'.
Proof.
  unfold bind. destruct (m1 w) as [[[]|e1] w1]; [|done].
  destruct (m2 w1) as [[[]|e2] w2]; [|done].
  destruct (m3 w2) as [[[]|e3] w3]; [|done].
  by intros ->.
Qed.

(** The sequence comment, close, delete the branch, refresh, from a record
    that carries the current ETag. *)
Lemma close_sequence_run l d n r num n' r' num' c w :
  heap w !! l = Some d ->
  shaped d n r num ->
  if_none_match_of d = Some (gh_etag w) ->
  shaped (gh_pull w) n' r' num' ->
  exists w',
    (pr_obj_create_comment c ;; pr_obj_close ;; delete_branch l false ;;
     lazy_update_pr_json l false) w = (OK l, w')
    /\ heap w' !! l = Some (refreshed w')
    /\ trace w' = trace w ++ [GhCreateComment c; GhClosePull; GhMe;
                              DoctrRun (delete_argv w n r);
                              RequestsGet (JStr n) num (Some (gh_etag w))]
    /\ gh_pull w' = dict_set (gh_pull w) "state" (JStr "closed").
Proof.
  intros Hl Hs He Hr.
  unfold pr_obj_create_comment, pr_obj_close. mrun.
  erewrite delete_branch_run; [|simpl; exact Hl|exact Hs].
  pose proof (branch_deleted_shaped _ _ _ _ Hs) as Hs'.
  assert (shaped (dict_set (gh_pull w) "state" (JStr "closed")) n' r' num') as Hr'
    by (by apply shaped_dict_set).
  erewrite lazy_update_pr_json_run; [|simpl; apply lookup_insert_eq|exact Hs'|exact Hr'].
  eexists. split; [reflexivity|].
  assert (if_none_match_of (branch_deleted d) = Some (gh_etag w)) as He'.
  { rewrite <- He. apply if_none_match_of_ext. by apply branch_deleted_get. }
  unfold refresh_world, not_modified. simpl. rewrite He'. simpl.
  rewrite append_quote_neq.
  split; [rewrite lookup_insert_eq; unfold refreshed; simpl; reflexivity|].
  split; [by rewrite <- !app_assoc|done].
Qed.

Lemma refreshed_get w n r num k :
  shaped (gh_pull w) n r num ->
  spec_lookup (keyspec_items PR_KEYS_TO_KEEP) k = Some None ->
  k <> "ETag" -> k <> "Last-Modified" ->
  dict_get (refreshed w) k = dict_get (gh_pull w) k.
Proof.
  intros Hr Hk H1 H2. unfold refreshed. rewrite !dict_get_set_ne by done.
  by rewrite (trimmed_shaped_get _ _ _ _ _ Hr), Hk.
Qed.

Lemma close_out_labels_on_closed l d dry_run w :
  heap w !! l = Some d ->
  dict_get d "state" = Some (JStr "closed") ->
  close_out_labels l dry_run w = (OK None, w).
Proof.
  intros Hl Hstate. unfold close_out_labels.
  rewrite (open_with_rerun_label_closed _ _ _ _ Hl Hstate). mrun.
  by rewrite (open_with_rerun_label_closed _ _ _ _ Hl Hstate).
Qed.

(** What the dirty-conflict rule does up to the list of commits, on a
    pull request that is open, dirty and not a draft. *)
Lemma close_out_dirty_prs_checks w l d n r num n' r' num' :
  heap w !! l = Some d ->
  shaped d n r num -> is_open d = true -> is_dirty d = true -> is_draft d = false ->
  shaped (gh_pull w) n' r' num' ->
  is_open (gh_pull w) = true -> is_dirty (gh_pull w) = true ->
  is_draft (gh_pull w) = false ->
  let d1 := record_after w d in
  let w1 := set_trace (trace w
                       ++ [RequestsGet (JStr n) num (if_none_match_of d);
                           GhRepository "conda-forge" (JStr (repo_name_of d1));
                           GhPullRequest (number_of d1);
                           GhListCommits])
                      (refresh_world w l d n num) in
  close_out_dirty_prs l false w
  = (if forallb is_bot_name (gh_commit_authors w) then
       url <- ask run_url ;;
       pr_obj_create_comment (dirty_comment url) ;;
       pr_obj_close ;;
       delete_branch l false ;;
       pr_json <- lazy_update_pr_json l false ;;
       d <- load pr_json ;;
       labels <- lift (py_getitem (JDict d) "labels") ;;
       labels <- lift (py_append labels (JDict BOT_RERUN_LABEL)) ;;
       setitem pr_json "labels" labels ;;
       ret (Some (dict_set d "labels" labels))
     else ret (Some d1)) w1.
Proof.
  intros Hl Hs Hod Hdd Hnd Hr Hor Hdr Hnr d1 w1.
  destruct (record_after_shaped w d _ _ _ _ _ _ Hs Hr) as (n1 & r1 & num1 & Hs1).
  fold d1 in Hs1.
  assert (is_open d1 = true) as Ho1.
  { unfold d1. erewrite is_open_ext; [|by eapply record_after_get].
    by destruct (not_modified w d). }
  assert (is_dirty d1 = true) as Hd1.
  { unfold d1. erewrite is_dirty_ext; [|by eapply record_after_get].
    by destruct (not_modified w d). }
  assert (is_draft d1 = false) as Hn1.
  { unfold d1. erewrite is_draft_ext; [|by eapply record_after_get].
    by destruct (not_modified w d). }
  subst w1. destruct (shaped_projections _ _ _ _ Hs1) as (-> & -> & _).
  unfold close_out_dirty_prs.
  rewrite (open_and_dirty_run _ _ _ _ Hl Hod Hdd). cbn iota.
  erewrite bind_OK; [|by eapply lazy_update_pr_json_run].
  pose proof (heap_refresh_world w l d n num) as Hl1. fold d1 in Hl1.
  rewrite (open_and_dirty_run _ _ _ _ Hl1 Ho1 Hd1). cbn iota.
  rewrite (bind_get_default _ _ _ _ _ _ Hl1).
  fold (is_draft d1). rewrite Hn1. cbn [negb andb].
  rewrite (bind_load _ _ _ _ Hl1).
  rewrite (get_pr_obj_from_pr_json_run _ _ _ _ _ _ _ Hl1 Hs1).
  unfold pr_obj_commits. rewrite !bind_bind, bind_emit, bind_ask. simpl.
  by rewrite <- !app_assoc.
Qed.

(** ** Inversion of runs, and the invariant along them *)

Arguments conforms : simpl never.

Lemma record_after_set_heap h w d : record_after (set_heap h w) d = record_after w d.
Proof. unfold record_after, not_modified, refreshed. simpl. reflexivity. Qed.

Lemma heap_set_heap h w : heap (set_heap h w) = h.
Proof. done. Qed.

Lemma bind_inv {A B} (m : M A) (k : A -> M B) w b w' :
  bind m k w = (OK b, w') ->
  exists a w1, m w = (OK a, w1) /\ k a w1 = (OK b, w').
Proof.
  unfold bind. destruct (m w) as [[a|e] w1]; [|done]. intros H. by exists a, w1.
Qed.

Lemma ret_inv {A} (a b : A) w w' : ret a w = (OK b, w') -> a = b /\ w' = w.
Proof. unfold ret. by inversion 1. Qed.

Lemma trim_pr_json_keys_conforms w l src r w' :
  trim_pr_json_keys l src w = (OK r, w') -> r = l /\ record_conforms w' l.
Proof.
  rewrite trim_pr_json_keys_run.
  destruct (heap w !! l) as [d|]; [|done].
  destruct (trim_source w l d src) as [c|]; [|done].
  destruct (snd (trimmed c)); [done|].
  intros [= <- <-]. split; [done|].
  exists (fst (trimmed c)). rewrite heap_set_heap, lookup_insert_eq.
  split; [done|apply trimmed_conforms].
Qed.

Lemma setitem_conforms w l k v w' :
  record_conforms w l ->
  admits (keyspec_items PR_KEYS_TO_KEEP) (k, v) = true ->
  setitem l k v w = (OK tt, w') ->
  record_conforms w' l.
Proof.
  intros (d & Hl & Hd) Hk Hrun. unfold setitem in Hrun.
  rewrite (bind_load _ _ _ _ Hl) in Hrun. unfold store in Hrun.
  injection Hrun as <-. exists (dict_set d k v).
  rewrite heap_set_heap, lookup_insert_eq. split; [done|].
  by apply (conforms_dict_set (keyspec_items PR_KEYS_TO_KEEP)).
Qed.

Lemma lazy_update_pr_json_conforms w l force r w' :
  lazy_update_pr_json l force w = (OK r, w') -> record_conforms w' r.
Proof.
  unfold lazy_update_pr_json. intros H.
  do 12 (apply bind_inv in H as (? & ? & _ & H)).
  match goal with resp : response |- _ => destruct resp as [status body etag lm] end.
  destruct (Z.eqb status 200).
  - apply bind_inv in H as (src & ? & _ & H).
    apply bind_inv in H as (l1 & ? & Htrim & H).
    apply trim_pr_json_keys_conforms in Htrim as [-> Hc].
    apply bind_inv in H as ([] & ? & Hset1 & H).
    apply bind_inv in H as ([] & ? & Hset2 & H).
    apply ret_inv in H as [<- ->].
    pose proof (setitem_conforms _ l "ETag" (JStr etag) _ Hc eq_refl Hset1) as Hc1.
    exact (setitem_conforms _ l "Last-Modified" (JStr lm) _ Hc1 eq_refl Hset2).
  - by apply trim_pr_json_keys_conforms in H as [-> Hc].
Qed.

Lemma getitem_path_inv l p w v w' : getitem_path l p w = (OK v, w') -> w' = w.
Proof.
  unfold getitem_path, bind, load, lift.
  destruct (heap w !! l) as [d|]; [|done].
  by destruct (py_getitem_path (JDict d) p); intros [= _ <-].
Qed.

Lemma getitem_inv l k w v w' :
  getitem l k w = (OK v, w') ->
  w' = w /\ exists d, heap w !! l = Some d /\ dict_get d k = Some v.
Proof.
  unfold getitem, bind, load, lift.
  destruct (heap w !! l) as [d|]; [|done]. simpl.
  destruct (dict_get d k) as [x|] eqn:Hk; [|done]. intros [= <- <-].
  split; [done|]. by exists d.
Qed.

Lemma lift_inv {A} (r : res A) w v w' : lift r w = (OK v, w') -> r = OK v /\ w' = w.
Proof. unfold lift. by intros [= -> <-]. Qed.

Lemma load_inv l w d w' : load l w = (OK d, w') -> heap w !! l = Some d /\ w' = w.
Proof. unfold load. destruct (heap w !! l); [|done]. by intros [= -> <-]. Qed.

Lemma conforms_get items d k x :
  conforms (Keys items) d = true -> dict_get d k = Some x ->
  admits items (k, x) = true.
Proof.
  rewrite conforms_admits.
  induction d as [|[k' x'] rest IH]; [done|]. simpl.
  intros [H1 H2]%andb_prop.
  destruct (String.eqb k' k) eqn:E; [|by apply IH].
  apply String.eqb_eq in E. subst k'. by intros [= <-].
Qed.

(** What [delete_branch] leaves in the record keeps the invariant. *)
Lemma delete_branch_conforms w l dry_run w' :
  record_conforms w l ->
  delete_branch l dry_run w = (OK tt, w') ->
  record_conforms w' l.
Proof.
  intros Hc H. unfold delete_branch in H.
  apply bind_inv in H as (ref & ? & H1 & H). apply getitem_path_inv in H1 as ->.
  destruct dry_run.
  { unfold emit in H. injection H as <-. exact Hc. }
  apply bind_inv in H as (name & ? & H1 & H). apply getitem_path_inv in H1 as ->.
  apply bind_inv in H as (login & w1 & H1 & H).
  assert (heap w1 = heap w) as Hw1.
  { unfold gh_me_login, bind, emit, ask in H1. by injection H1 as _ <-. }
  clear H1.
  apply bind_inv in H as (deploy & ? & H1 & H). apply lift_inv in H1 as [_ ->].
  apply bind_inv in H as (token & ? & H1 & H).
  unfold ask in H1. injection H1 as _ <-.
  apply bind_inv in H as (ref_arg & ? & H1 & H). apply lift_inv in H1 as [_ ->].
  apply bind_inv in H as (ecode & w2 & H1 & H).
  assert (heap w2 = heap w) as Hw2.
  { unfold doctr_run, bind, emit, ask, ret in H1. injection H1 as _ <-. exact Hw1. }
  clear H1.
  destruct Hc as (d & Hl & Hd). rewrite <- Hw2 in Hl.
  unfold setitem_path in H. rewrite (bind_load _ _ _ _ Hl) in H.
  apply bind_inv in H as (v & ? & H1 & H). apply lift_inv in H1 as [Hset ->].
  simpl in Hset.
  destruct (dict_get d "head") as [[| | | |?|h]|] eqn:Hh; try done.
  simpl in Hset. injection Hset as <-.
  unfold store in H. injection H as <-.
  exists (dict_set d "head" (JDict (dict_set h "ref" (JStr "this_is_not_a_branch")))).
  rewrite heap_set_heap, lookup_insert_eq. split; [done|].
  apply (conforms_dict_set (keyspec_items PR_KEYS_TO_KEEP)); [done|].
  pose proof (conforms_get _ _ _ _ Hd Hh) as Hhead.
  unfold admits in *. cbn [fst snd] in *.
  change (spec_lookup (keyspec_items PR_KEYS_TO_KEEP) "head")
    with (Some (Some (Keys [("ref", None)]))) in *.
  cbv iota in *. by apply conforms_dict_set.
Qed.

Lemma get_default_inv l k dflt w v w' :
  get_default l k dflt w = (OK v, w') -> w' = w.
Proof.
  unfold get_default, bind, load, ret.
  destruct (heap w !! l); [|done]. by intros [= _ <-].
Qed.

Lemma push_repo_conforms feedstock_name feedstock_dir body title branch base_branch
      head dry_run w r w' :
  push_repo feedstock_name feedstock_dir body title branch base_branch head dry_run w
  = (OK (PushRecord r), w') ->
  record_conforms w' r.
Proof.
  unfold push_repo. intros H.
  do 3 (apply bind_inv in H as (? & ? & _ & H)).
  match goal with pushed : bool |- _ => destruct pushed end; simpl in H.
  2:{ by apply ret_inv in H as [[=] _]. }
  apply bind_inv in H as (? & ? & _ & H).
  destruct dry_run.
  { apply bind_inv in H as (? & ? & _ & H). by apply ret_inv in H as [[=] _]. }
  do 2 (apply bind_inv in H as (? & ? & _ & H)).
  match goal with pr : option new_pull |- _ => destruct pr as [pr|] end.
  - do 2 (apply bind_inv in H as (? & ? & _ & H)).
    apply bind_inv in H as (l1 & ? & Htrim & H).
    apply trim_pr_json_keys_conforms in Htrim as [-> Hc].
    by apply ret_inv in H as [[= <-] ->].
  - apply bind_inv in H as (? & ? & _ & H). by apply ret_inv in H as [[=] _].
Qed.

Lemma refresh_pr_conforms w l d w' :
  refresh_pr l false w = (OK (Some d), w') -> conforms PR_KEYS_TO_KEEP d = true.
Proof.
  unfold refresh_pr. intros H.
  apply bind_inv in H as (state & ? & _ & H).
  destruct (negb (is_str "closed" state)); [|by apply ret_inv in H as [[=] _]].
  do 2 (apply bind_inv in H as (? & ? & _ & H)).
  apply bind_inv in H as (c & w1 & Hupd & H).
  apply lazy_update_pr_json_conforms in Hupd.
  apply bind_inv in H as (state1 & ? & H1 & H). apply getitem_inv in H1 as [-> _].
  apply bind_inv in H as (merged_at & ? & H1 & H).
  apply get_default_inv in H1 as ->.
  apply bind_inv in H as ([] & w2 & Hdel & H).
  assert (record_conforms w2 c) as (d2 & Hl2 & Hd2).
  { destruct (is_str "closed" state1 && truthy merged_at); simpl in Hdel.
    - by eapply delete_branch_conforms.
    - by apply ret_inv in Hdel as [_ ->]. }
  apply bind_inv in H as (pr_dict & ? & H1 & H).
  apply load_inv in H1 as [Hl ->]. apply ret_inv in H as [[= <-] ->].
  rewrite Hl2 in Hl. by injection Hl as <-.
Qed.

Lemma refresh_pr_dry_run w l d w' :
  refresh_pr l true w = (OK (Some d), w') -> heap w !! l = Some d.
Proof.
  unfold refresh_pr. intros H.
  apply bind_inv in H as (state & ? & H1 & H). apply getitem_inv in H1 as [-> _].
  destruct (negb (is_str "closed" state)); [|by apply ret_inv in H as [[=] _]].
  apply bind_inv in H as (id_ & ? & H1 & H). apply getitem_inv in H1 as [-> _].
  apply bind_inv in H as ([] & ? & H1 & H). unfold emit in H1. injection H1 as <-.
  apply bind_inv in H as (pr_dict & ? & H1 & H).
  apply load_inv in H1 as [Hl ->]. apply ret_inv in H as [[= <-] _].
  exact Hl.
Qed.

(** * The claims *)

(** C1: trimming is idempotent.  Trimming the record that
    [trim_pr_json_keys] returns gives the same result and leaves every
    record as the first trimming left it; when the first trimming raises,
    so does the sequence, in the same state. *)
Theorem trim_pr_json_keys_idempotent (w : world) (pr_json : loc) :
  (r <- trim_pr_json_keys pr_json None ;; trim_pr_json_keys r None) w
  = trim_pr_json_keys pr_json None w.
Proof.
  rewrite (trim_pr_json_keys_run w pr_json None).
  destruct (heap w !! pr_json) as [d|] eqn:Hl; simpl.
  - destruct (trimmed d) as [R [e|]] eqn:HR; simpl.
    + erewrite bind_Raise; [done|].
      by rewrite trim_pr_json_keys_run, Hl; simpl; rewrite HR.
    + erewrite bind_OK;
        [|by rewrite trim_pr_json_keys_run, Hl; simpl; rewrite HR].
      rewrite trim_pr_json_keys_run. simpl. rewrite lookup_insert_eq. simpl.
      rewrite (trimmed_idempotent _ _ HR). simpl.
      by rewrite insert_insert_eq.
  - erewrite bind_Raise; [done|].
    by rewrite trim_pr_json_keys_run, Hl.
Qed.

(** C2, as the code has it: for a record whose state is "closed",
    [refresh_pr] makes no call at all, leaves the world (the record
    included) as it is, and returns none, in dry-run mode or not. *)
Theorem refresh_pr_closed (w : world) (pr_json : loc) (d : pydict) (dry_run : bool) :
  heap w !! pr_json = Some d ->
  dict_get d "state" = Some (JStr "closed") ->
  refresh_pr pr_json dry_run w = (OK None, w).
Proof.
  intros Hl Hstate. unfold refresh_pr.
  by rewrite (bind_getitem _ _ _ _ _ _ Hl Hstate).
Qed.

(** C3: the stale-rerun rule, run on the record of a pull request that is
    open and carries the label "bot-rerun" (for the record and for the
    hosted API alike): it refreshes once, posts the comment, closes the pull
    request, deletes its branch, refreshes again and returns the final
    record, which is closed; a second run on that record returns none and
    does nothing. *)
Theorem close_out_labels_closes (w : world) (pr_json : loc) (d : pydict) :
  heap w !! pr_json = Some d ->
  pull_shaped d = true ->
  is_open d = true ->
  carries_label "bot-rerun" d = true ->
  pull_shaped (gh_pull w) = true ->
  is_open (gh_pull w) = true ->
  carries_label "bot-rerun" (gh_pull w) = true ->
  let d1 := record_after w d in
  exists final w',
    close_out_labels pr_json false w = (OK (Some final), w')
    /\ trace w'
       = trace w
         ++ [RequestsGet (JStr (repo_name_of d)) (number_of d) (if_none_match_of d);
             GhRepository "conda-forge" (JStr (repo_name_of d1));
             GhPullRequest (number_of d1);
             GhCreateComment (rerun_comment (run_url w));
             GhClosePull;
             GhMe;
             DoctrRun (delete_argv w (repo_name_of d1) (ref_of d1));
             RequestsGet (JStr (repo_name_of d1)) (number_of d1) (Some (gh_etag w))]
    /\ gh_pull w' = dict_set (gh_pull w) "state" (JStr "closed")
    /\ heap w' !! pr_json = Some final
    /\ dict_get final "state" = Some (JStr "closed")
    /\ forall dry_run w2 l2,
         heap w2 !! l2 = Some final ->
         close_out_labels l2 dry_run w2 = (OK None, w2).
Proof.
  intros Hl Hsd Hod Hcd Hsr Hor Hcr d1.
  apply pull_shaped_inv in Hsd as (n & r & num & Hs).
  apply pull_shaped_inv in Hsr as (n' & r' & num' & Hr).
  destruct (record_after_shaped w d _ _ _ _ _ _ Hs Hr) as (n1 & r1 & num1 & Hs1).
  fold d1 in Hs1.
  assert (is_open d1 = true) as Ho1.
  { unfold d1. erewrite is_open_ext; [|by eapply record_after_get].
    by destruct (not_modified w d). }
  assert (carries_label "bot-rerun" d1 = true) as Hc1.
  { unfold d1. erewrite carries_label_ext; [|by eapply record_after_get].
    by destruct (not_modified w d). }
  destruct (shaped_projections _ _ _ _ Hs) as (-> & -> & _).
  destruct (shaped_projections _ _ _ _ Hs1) as (-> & -> & ->).
  unfold close_out_labels at 1.
  rewrite (open_with_rerun_label_run _ _ _ _ Hl Hod Hcd). cbn iota.
  erewrite bind_OK; [|by eapply lazy_update_pr_json_run].
  pose proof (heap_refresh_world w pr_json d n num) as Hl1. fold d1 in Hl1.
  rewrite (open_with_rerun_label_run _ _ _ _ Hl1 Ho1 Hc1). cbn iota.
  rewrite !bind_bind.
  rewrite (get_pr_obj_from_pr_json_run _ _ _ _ _ _ _ Hl1 Hs1).
  set (w1 := set_trace _ (refresh_world w pr_json d n num)).
  rewrite bind_bind, bind_ask.
  destruct (close_sequence_run pr_json d1 n1 r1 num1 n' r' num'
              (rerun_comment (run_url w1)) w1)
    as (w' & Hrun & Hl' & Ht & Hp); [exact Hl1|exact Hs1| |exact Hr|].
  { simpl. unfold d1. by eapply record_after_etag. }
  rewrite (bind_OK _ _ _ _ _ Hrun).
  rewrite (bind_load _ _ _ _ Hl').
  exists (refreshed w'), w'. split; [done|].
  split.
  { rewrite Ht. unfold delete_argv. simpl. by rewrite <- !app_assoc. }
  split; [done|]. split; [done|].
  assert (dict_get (refreshed w') "state" = Some (JStr "closed")) as Hstate.
  { erewrite refreshed_get; [|rewrite Hp; by apply shaped_dict_set|done|done|done].
    rewrite Hp. apply dict_get_set_eq. }
  split; [done|].
  intros dry_run w2 l2 Hl2. by eapply close_out_labels_on_closed.
Qed.

(** C4, as the code has it: when a commit of an open, dirty pull request
    that is not a draft has an author outside the bot identities, the
    dirty-conflict rule leaves the pull request untouched (no comment, no
    close, no branch deletion) and returns the refreshed record, with the
    labels it had. *)
Theorem close_out_dirty_prs_human_commit (w : world) (pr_json : loc) (d : pydict) :
  heap w !! pr_json = Some d ->
  pull_shaped d = true ->
  is_open d = true -> is_dirty d = true -> is_draft d = false ->
  pull_shaped (gh_pull w) = true ->
  is_open (gh_pull w) = true -> is_dirty (gh_pull w) = true ->
  is_draft (gh_pull w) = false ->
  forallb is_bot_name (gh_commit_authors w) = false ->
  let d1 := record_after w d in
  exists w',
    close_out_dirty_prs pr_json false w = (OK (Some d1), w')
    /\ trace w'
       = trace w
         ++ [RequestsGet (JStr (repo_name_of d)) (number_of d) (if_none_match_of d);
             GhRepository "conda-forge" (JStr (repo_name_of d1));
             GhPullRequest (number_of d1);
             GhListCommits]
    /\ gh_pull w' = gh_pull w
    /\ gh_etag w' = gh_etag w
    /\ heap w' !! pr_json = Some d1
    /\ dict_get d1 "labels"
       = dict_get (if not_modified w d then d else gh_pull w) "labels".
Proof.
  intros Hl Hsd Hod Hdd Hnd Hsr Hor Hdr Hnr Hhuman d1.
  apply pull_shaped_inv in Hsd as (n & r & num & Hs).
  apply pull_shaped_inv in Hsr as (n' & r' & num' & Hr).
  rewrite (close_out_dirty_prs_checks w pr_json d _ _ _ _ _ _ Hl Hs Hod Hdd Hnd
             Hr Hor Hdr Hnr).
  simpl. rewrite Hhuman.
  destruct (shaped_projections _ _ _ _ Hs) as (-> & -> & _).
  eexists. split; [reflexivity|]. simpl.
  split; [done|]. split; [done|]. split; [done|].
  split; [apply (heap_refresh_world w pr_json d n num)|].
  by eapply record_after_get.
Qed.

(** C5: when every commit of an open, dirty pull request that is not a
    draft has a bot author, the dirty-conflict rule closes it and returns
    the final record with an entry named "bot-rerun" appended to its labels;
    the labels of the hosted pull request stay as they were and no add-label
    call is made. *)
Theorem close_out_dirty_prs_closes (w : world) (pr_json : loc) (d : pydict)
                                   (labels : list json) :
  heap w !! pr_json = Some d ->
  pull_shaped d = true ->
  is_open d = true -> is_dirty d = true -> is_draft d = false ->
  pull_shaped (gh_pull w) = true ->
  is_open (gh_pull w) = true -> is_dirty (gh_pull w) = true ->
  is_draft (gh_pull w) = false ->
  dict_get (gh_pull w) "labels" = Some (JList labels) ->
  forallb is_bot_name (gh_commit_authors w) = true ->
  let d1 := record_after w d in
  exists final w' calls,
    close_out_dirty_prs pr_json false w = (OK (Some final), w')
    /\ dict_get final "state" = Some (JStr "closed")
    /\ dict_get final "labels" = Some (JList (labels ++ [JDict BOT_RERUN_LABEL]))
    /\ gh_pull w' = dict_set (gh_pull w) "state" (JStr "closed")
    /\ dict_get (gh_pull w') "labels" = Some (JList labels)
    /\ trace w' = trace w ++ calls
    /\ calls = [RequestsGet (JStr (repo_name_of d)) (number_of d) (if_none_match_of d);
                GhRepository "conda-forge" (JStr (repo_name_of d1));
                GhPullRequest (number_of d1);
                GhListCommits;
                GhCreateComment (dirty_comment (run_url w));
                GhClosePull;
                GhMe;
                DoctrRun (delete_argv w (repo_name_of d1) (ref_of d1));
                RequestsGet (JStr (repo_name_of d1)) (number_of d1)
                            (Some (gh_etag w))]
    /\ (forall name, ~ In (GhAddLabels name) calls)
    /\ heap w' !! pr_json = Some final.
Proof.
  intros Hl Hsd Hod Hdd Hnd Hsr Hor Hdr Hnr Hlabels Hbots d1.
  apply pull_shaped_inv in Hsd as (n & r & num & Hs).
  apply pull_shaped_inv in Hsr as (n' & r' & num' & Hr).
  rewrite (close_out_dirty_prs_checks w pr_json d _ _ _ _ _ _ Hl Hs Hod Hdd Hnd
             Hr Hor Hdr Hnr).
  cbv zeta. fold d1. rewrite Hbots.
  destruct (record_after_shaped w d _ _ _ _ _ _ Hs Hr) as (n1 & r1 & num1 & Hs1).
  fold d1 in Hs1.
  destruct (shaped_projections _ _ _ _ Hs) as (-> & -> & _).
  destruct (shaped_projections _ _ _ _ Hs1) as (-> & -> & ->).
  set (w1 := set_trace _ (refresh_world w pr_json d n num)).
  rewrite bind_ask.
  destruct (close_sequence_run pr_json d1 n1 r1 num1 n' r' num'
              (dirty_comment (run_url w1)) w1)
    as (w' & Hrun & Hl' & Ht & Hp); [|exact Hs1| |exact Hr|].
  { apply (heap_refresh_world w pr_json d n num). }
  { simpl. unfold d1. by eapply record_after_etag. }
  rewrite (bind_seq4_OK _ _ _ _ _ _ _ _ Hrun).
  rewrite (bind_load _ _ _ _ Hl').
  assert (shaped (gh_pull w') n' r' num') as Hr'
    by (rewrite Hp; by apply shaped_dict_set).
  assert (dict_get (refreshed w') "labels" = Some (JList labels)) as Hfl.
  { erewrite refreshed_get; [|exact Hr'|done|done|done].
    rewrite Hp. by rewrite dict_get_set_ne. }
  simpl. rewrite Hfl. rewrite bind_lift_OK. simpl. rewrite bind_lift_OK.
  rewrite (bind_setitem _ _ _ _ _ _ Hl').
  eexists _, _, _. split; [reflexivity|]. simpl.
  split.
  { rewrite dict_get_set_ne by done.
    erewrite refreshed_get; [|exact Hr'|done|done|done].
    rewrite Hp. apply dict_get_set_eq. }
  split; [apply dict_get_set_eq|].
  split; [done|].
  split; [rewrite Hp; by rewrite dict_get_set_ne|].
  split.
  { rewrite Ht. unfold delete_argv. simpl. rewrite <- !app_assoc. reflexivity. }
  split; [reflexivity|].
  split; [|apply lookup_insert_eq].
  intros name Hin. simpl in Hin.
  repeat (destruct Hin as [Hin|Hin]; [discriminate Hin|]). done.
Qed.

(** C6, as the code has it: [refresh_pr] on an open record works on a deep
    copy.  It returns the refreshed, trimmed state (with the sentinel in
    place of the head reference when the pull request turned out merged and
    closed), and the record object that was passed holds what it held.  It
    is [lazy_update_pr_json] that writes the whole trimmed record back into
    the object it is given. *)
Theorem refresh_pr_returns_copy (w : world) (pr_json : loc) (d : pydict) :
  heap w !! pr_json = Some d ->
  pull_shaped d = true ->
  is_open d = true ->
  pull_shaped (gh_pull w) = true ->
  dict_mem (gh_pull w) "state" = true ->
  let d1 := record_after w d in
  (exists w',
      refresh_pr pr_json false w
      = (OK (Some (if merged_and_closed d1 then branch_deleted d1 else d1)), w')
      /\ heap w' !! pr_json = Some d)
  /\ (exists w',
         lazy_update_pr_json pr_json false w = (OK pr_json, w')
         /\ heap w' !! pr_json = Some d1).
Proof.
  intros Hl Hsd Hod Hsr Hstate d1.
  apply pull_shaped_inv in Hsd as (n & r & num & Hs).
  apply pull_shaped_inv in Hsr as (n' & r' & num' & Hr).
  split;
    [|exists (refresh_world w pr_json d n num);
      split; [by eapply lazy_update_pr_json_run|apply heap_refresh_world]].
  destruct (record_after_shaped w d _ _ _ _ _ _ Hs Hr) as (n1 & r1 & num1 & Hs1).
  fold d1 in Hs1.
  pose proof (fresh_loc_ne _ _ _ Hl) as Hfresh.
  unfold refresh_pr, is_open in *.
  destruct (dict_get d "state") as [state|] eqn:Hst; [|done].
  rewrite (bind_getitem _ _ _ _ _ _ Hl Hst). rewrite Hod.
  rewrite (bind_load _ _ _ _ Hl), bind_alloc.
  set (c := fresh (dom (heap w))) in *.
  set (w1 := set_heap _ w).
  assert (heap w1 !! c = Some d) as Hc by (simpl; apply lookup_insert_eq).
  erewrite bind_OK; [|by eapply lazy_update_pr_json_run].
  pose proof (heap_refresh_world w1 c d n num) as Hc1.
  unfold w1 in Hc1 at 2. rewrite record_after_set_heap in Hc1. fold d1 in Hc1.
  assert (exists state1, dict_get d1 "state" = Some state1) as [state1 Hst1].
  { unfold d1. erewrite record_after_get; [|done..].
    destruct (not_modified w d); [eauto|].
    unfold dict_mem in Hstate. destruct (dict_get (gh_pull w) "state"); eauto. done. }
  rewrite (bind_getitem _ _ _ _ _ _ Hc1 Hst1).
  rewrite (bind_get_default _ _ _ _ _ _ Hc1).
  assert (heap (refresh_world w1 c d n num) !! pr_json = Some d) as Hkept.
  { unfold refresh_world. simpl.
    assert (fresh (dom (<[c:=d]> (heap w))) <> pr_json) as Hfresh2.
    { apply (fresh_loc_ne _ _ d). by rewrite lookup_insert_ne. }
    destruct (not_modified w1 d); rewrite !lookup_insert_ne by done; done. }
  unfold merged_and_closed. rewrite Hst1.
  destruct (is_str "closed" state1 && truthy (dict_get_default d1 "merged_at" (JBool false)));
    simpl.
  - erewrite delete_branch_run; [|exact Hc1|exact Hs1].
    erewrite bind_load; [|simpl; apply lookup_insert_eq].
    eexists. split; [reflexivity|]. simpl.
    rewrite lookup_insert_ne by done. exact Hkept.
  - rewrite bind_ret, (bind_load _ _ _ _ Hc1).
    eexists. split; [reflexivity|]. exact Hkept.
Qed.

(** C7, as the code has it: the record that [trim_pr_json_keys] returns
    holds no key outside [PR_KEYS_TO_KEEP], nested shapes included, whatever
    the record and the source; hence so does every record returned by
    [push_repo], by [lazy_update_pr_json] and by [refresh_pr] in live mode.
    In dry-run mode [refresh_pr] trims nothing: it hands back the content
    of the cached record as it is. *)
Theorem key_subset_invariant :
  (forall w pr_json src_pr_json r w',
      trim_pr_json_keys pr_json src_pr_json w = (OK r, w') ->
      record_conforms w' r)
  /\ (forall feedstock_name feedstock_dir body title branch base_branch head
             dry_run w r w',
         push_repo feedstock_name feedstock_dir body title branch base_branch
                   head dry_run w = (OK (PushRecord r), w') ->
         record_conforms w' r)
  /\ (forall w pr_json force r w',
         lazy_update_pr_json pr_json force w = (OK r, w') ->
         record_conforms w' r)
  /\ (forall w pr_json d w',
         refresh_pr pr_json false w = (OK (Some d), w') ->
         conforms PR_KEYS_TO_KEEP d = true)
  /\ (forall w pr_json d w',
         refresh_pr pr_json true w = (OK (Some d), w') ->
         heap w !! pr_json = Some d).
Proof.
  split; [|split; [|split; [|split]]].
  - intros w l src r w' H. by apply trim_pr_json_keys_conforms in H as [-> H].
  - intros. by eapply push_repo_conforms.
  - intros. by eapply lazy_update_pr_json_conforms.
  - intros. by eapply refresh_pr_conforms.
  - intros. by eapply refresh_pr_dry_run.
Qed.

(** C8: when the directory does not exist and the clone exits non-zero,
    [fetch_repo] prints the message about the personal fork on the error
    stream and returns false; it runs nothing else and does not raise. *)
Theorem fetch_repo_clone_failure (w : world)
        (feedstock_dir origin upstream branch base_branch : string) :
  existsb (String.eqb feedstock_dir) (fs_dirs w) = false ->
  fst (proc w (trace w) ["git"; "clone"; "-q"; origin; feedstock_dir]) <> 0%Z ->
  fetch_repo feedstock_dir origin upstream branch base_branch w
  = (OK false,
     set_trace (trace w
                ++ [SubprocessRun ["git"; "clone"; "-q"; origin; feedstock_dir];
                    PrintStderr (("Could not clone " +:+ origin)
                                 +:+ ". Do you have a personal fork of the feedstock?")])
               w).
Proof.
  intros Hdir Hexit. unfold fetch_repo, os_path_isdir, subprocess_run.
  mrun. rewrite Hdir. mrun.
  apply Z.eqb_neq in Hexit. rewrite Hexit. mrun.
  unfold ret. by rewrite <- app_assoc.
Qed.

(** C9: in dry-run mode [push_repo] returns false after the login lookup
    and three printed lines: it runs no subprocess (no remote add, no push),
    makes no create-pull call, and does not raise. *)
Theorem push_repo_dry_run (w : world)
        (feedstock_name feedstock_dir body title branch base_branch : string)
        (head : option string) :
  exists calls,
    push_repo feedstock_name feedstock_dir body title branch base_branch head true w
    = (OK PushFalse, set_trace (trace w ++ calls) w)
    /\ calls
       = [GhMe;
          Print "dry run: adding remote and pushing up branch for "
                [JStr ("https://github.com/"
                       +:+ (gh_login w +:+ "/" +:+ feedstock_name +:+ "-feedstock")
                       +:+ ".git")];
          Print "Creating conda-forge feedstock pull request..." [];
          Print "dry run: create pr with title: " [JStr title]]
    /\ (forall argv, ~ In (DoctrRun argv) calls)
    /\ (forall argv, ~ In (SubprocessRun argv) calls)
    /\ (forall t b h bd, ~ In (GhCreatePull t b h bd) calls).
Proof.
  eexists. split; [|split; [reflexivity|]].
  - unfold push_repo, gh_me_login. mrun. unfold ret. simpl.
    by rewrite <- !app_assoc.
  - repeat split; intros; intros Hin; simpl in Hin;
      repeat (destruct Hin as [Hin|Hin]; [discriminate Hin|]); done.
Qed.

(** C10: the fork of the upstream URL of foo-feedstock for user alice. *)
Theorem fork_url_alice :
  fork_url "git@github.com:conda-forge/foo-feedstock.git" "alice"
  = OK "git@github.com:alice/foo-feedstock.git".
Proof. vm_compute. reflexivity. Qed.

(** * The claims on the sample worlds *)

(** A closed fact, by evaluation. *)
Abbreviation computed := (ltac:(vm_compute; reflexivity)) (only parsing).

(** The stale-rerun rule on the sample pull request. *)
Lemma close_out_labels_closes_witness :
  heap Example.bot_world !! 0 = Some (Example.cached "open")
  /\ pull_shaped (Example.cached "open") = true
  /\ is_open (Example.cached "open") = true
  /\ carries_label "bot-rerun" (Example.cached "open") = true
  /\ pull_shaped (gh_pull Example.bot_world) = true
  /\ is_open (gh_pull Example.bot_world) = true
  /\ carries_label "bot-rerun" (gh_pull Example.bot_world) = true
  /\ exists final w',
      close_out_labels 0 false Example.bot_world = (OK (Some final), w')
      /\ dict_get final "state" = Some (JStr "closed")
      /\ close_out_labels 0 false w' = (OK None, w').
Proof.
  do 7 (split; [vm_compute; reflexivity|]).
  destruct (close_out_labels_closes Example.bot_world 0 (Example.cached "open")
              computed computed computed computed computed computed computed)
    as (final & w' & Hrun & _ & _ & Hl & Hstate & Hagain).
  exists final, w'. split; [exact Hrun|]. split; [exact Hstate|].
  apply Hagain, Hl.
Defined.

(** The dirty-conflict rule when somebody else has committed. *)
Lemma close_out_dirty_prs_human_commit_witness :
  heap Example.human_world !! 0 = Some (Example.cached "open")
  /\ pull_shaped (Example.cached "open") = true
  /\ is_open (Example.cached "open") = true
  /\ is_dirty (Example.cached "open") = true
  /\ is_draft (Example.cached "open") = false
  /\ pull_shaped (gh_pull Example.human_world) = true
  /\ is_open (gh_pull Example.human_world) = true
  /\ is_dirty (gh_pull Example.human_world) = true
  /\ is_draft (gh_pull Example.human_world) = false
  /\ forallb is_bot_name (gh_commit_authors Example.human_world) = false
  /\ exists w',
      close_out_dirty_prs 0 false Example.human_world
      = (OK (Some (record_after Example.human_world (Example.cached "open"))), w')
      /\ gh_pull w' = gh_pull Example.human_world.
Proof.
  do 10 (split; [vm_compute; reflexivity|]).
  destruct (close_out_dirty_prs_human_commit Example.human_world 0
              (Example.cached "open")
              computed computed computed computed computed computed computed
              computed computed computed)
    as (w' & Hrun & _ & Hpull & _).
  exists w'. split; [exact Hrun|exact Hpull].
Defined.

(** Counterexample to C4 as it is stated: with a commit by somebody else, the rule
    does not return none. *)
Lemma human_commit_does_not_return_none :
  is_open (Example.cached "open") = true
  /\ is_dirty (Example.cached "open") = true
  /\ is_draft (Example.cached "open") = false
  /\ is_open (gh_pull Example.human_world) = true
  /\ is_dirty (gh_pull Example.human_world) = true
  /\ is_draft (gh_pull Example.human_world) = false
  /\ is_bot_name "alice" = false
  /\ In "alice" (gh_commit_authors Example.human_world)
  /\ fst (close_out_dirty_prs 0 false Example.human_world) <> OK None.
Proof.
  do 7 (split; [vm_compute; reflexivity|]).
  split; [right; left; reflexivity|].
  vm_compute. discriminate.
Qed.

(** The dirty-conflict rule when only the bot has committed. *)
Lemma close_out_dirty_prs_closes_witness :
  heap Example.bot_world !! 0 = Some (Example.cached "open")
  /\ pull_shaped (Example.cached "open") = true
  /\ is_open (Example.cached "open") = true
  /\ is_dirty (Example.cached "open") = true
  /\ is_draft (Example.cached "open") = false
  /\ pull_shaped (gh_pull Example.bot_world) = true
  /\ is_open (gh_pull Example.bot_world) = true
  /\ is_dirty (gh_pull Example.bot_world) = true
  /\ is_draft (gh_pull Example.bot_world) = false
  /\ dict_get (gh_pull Example.bot_world) "labels"
     = Some (JList [JDict [("id", JNum 5); ("name", JStr "bot-rerun")]])
  /\ forallb is_bot_name (gh_commit_authors Example.bot_world) = true
  /\ exists final w',
      close_out_dirty_prs 0 false Example.bot_world = (OK (Some final), w')
      /\ dict_get final "state" = Some (JStr "closed")
      /\ dict_get final "labels"
         = Some (JList [JDict [("id", JNum 5); ("name", JStr "bot-rerun")];
                        JDict BOT_RERUN_LABEL])
      /\ dict_get (gh_pull w') "labels"
         = Some (JList [JDict [("id", JNum 5); ("name", JStr "bot-rerun")]]).
Proof.
  do 11 (split; [vm_compute; reflexivity|]).
  destruct (close_out_dirty_prs_closes Example.bot_world 0 (Example.cached "open")
              [JDict [("id", JNum 5); ("name", JStr "bot-rerun")]]
              computed computed computed computed computed computed computed
              computed computed computed computed)
    as (final & w' & calls & Hrun & Hstate & Hlabels & _ & Hhosted & _).
  exists final, w'. split; [exact Hrun|]. split; [exact Hstate|].
  split; [exact Hlabels|exact Hhosted].
Defined.

(** [refresh_pr] on the closed sample record. *)
Lemma refresh_pr_closed_witness :
  heap Example.closed_world !! 0 = Some (Example.cached "closed")
  /\ dict_get (Example.cached "closed") "state" = Some (JStr "closed")
  /\ refresh_pr 0 false Example.closed_world = (OK None, Example.closed_world).
Proof.
  do 2 (split; [vm_compute; reflexivity|]).
  exact (refresh_pr_closed Example.closed_world 0 (Example.cached "closed") false
           computed computed).
Defined.

(** Counterexample to C2 as it is stated: a closed record that was never merged is not
    returned, trimmed or not. *)
Lemma closed_record_is_not_returned :
  dict_get (Example.cached "closed") "state" = Some (JStr "closed")
  /\ dict_get (Example.cached "closed") "merged_at" = Some JNull
  /\ fst (refresh_pr 0 false Example.closed_world) = OK None
  /\ fst (refresh_pr 0 false Example.closed_world)
     <> OK (Some (Example.cached "closed"))
  /\ fst (refresh_pr 0 false Example.closed_world)
     <> OK (Some (fst (trimmed (Example.cached "closed")))).
Proof.
  do 3 (split; [vm_compute; reflexivity|]).
  split; vm_compute; discriminate.
Qed.

(** [refresh_pr] when the pull request was closed behind the record's back. *)
Lemma refresh_pr_returns_copy_witness :
  heap Example.stale_world !! 0 = Some (Example.cached "open")
  /\ pull_shaped (Example.cached "open") = true
  /\ is_open (Example.cached "open") = true
  /\ pull_shaped (gh_pull Example.stale_world) = true
  /\ dict_mem (gh_pull Example.stale_world) "state" = true
  /\ exists pr_dict w',
      refresh_pr 0 false Example.stale_world = (OK (Some pr_dict), w')
      /\ heap w' !! 0 = Some (Example.cached "open").
Proof.
  do 5 (split; [vm_compute; reflexivity|]).
  destruct (refresh_pr_returns_copy Example.stale_world 0 (Example.cached "open")
              computed computed computed computed computed)
    as [(w' & Hrun & Hkept) _].
  eexists _, w'. split; [exact Hrun|exact Hkept].
Defined.

(** Counterexample to C6 as it is stated: after [refresh_pr], the record that was
    passed still says "open", while the trimmed state of the hosted side,
    which the returned dict holds, says "closed". *)
Lemma refresh_pr_does_not_write_back :
  let w' := snd (refresh_pr 0 false Example.stale_world) in
  is_open (Example.cached "open") = true
  /\ dict_get (fst (trimmed (gh_pull w'))) "state" = Some (JStr "closed")
  /\ (exists returned,
         fst (refresh_pr 0 false Example.stale_world) = OK (Some returned)
         /\ dict_get returned "state" = Some (JStr "closed"))
  /\ (exists passed,
         heap w' !! 0 = Some passed
         /\ dict_get passed "state" = Some (JStr "open"))
  /\ ~ (exists passed,
           heap w' !! 0 = Some passed
           /\ forall k v, dict_get (fst (trimmed (gh_pull w'))) k = Some v ->
                          dict_get passed k = Some v).
Proof.
  cbv zeta.
  split; [vm_compute; reflexivity|].
  split; [vm_compute; reflexivity|].
  split; [eexists; split; vm_compute; reflexivity|].
  split; [eexists; split; vm_compute; reflexivity|].
  intros (passed & Hl & Hall).
  specialize (Hall "state" (JStr "closed")).
  vm_compute in Hl. injection Hl as <-.
  vm_compute in Hall. specialize (Hall eq_refl). discriminate Hall.
Qed.

(** Trimming a record that holds keys outside the subset. *)
Lemma key_subset_invariant_witness :
  trim_pr_json_keys 0 None Example.untrimmed_world
  = (OK 0, snd (trim_pr_json_keys 0 None Example.untrimmed_world))
  /\ conforms PR_KEYS_TO_KEEP (Example.hosted "open") = false
  /\ record_conforms (snd (trim_pr_json_keys 0 None Example.untrimmed_world)) 0.
Proof.
  split; [vm_compute; reflexivity|]. split; [vm_compute; reflexivity|].
  exact (proj1 key_subset_invariant Example.untrimmed_world 0 None 0 _ computed).
Defined.

(** Counterexample to C7 as it is stated: in dry-run mode, the refresh of
    an open record that was never trimmed produces a dict that holds keys
    outside [PR_KEYS_TO_KEEP]. *)
Lemma dry_run_refresh_returns_untrimmed :
  is_open (Example.hosted "open") = true
  /\ heap Example.untrimmed_world !! 0 = Some (Example.hosted "open")
  /\ (exists produced,
         fst (refresh_pr 0 true Example.untrimmed_world) = OK (Some produced)
         /\ conforms PR_KEYS_TO_KEEP produced = false
         /\ dict_get produced "title" = Some (JStr "foo v1.2.3")
         /\ spec_lookup (keyspec_items PR_KEYS_TO_KEEP) "title" = None).
Proof.
  split; [vm_compute; reflexivity|]. split; [vm_compute; reflexivity|].
  exists (Example.hosted "open").
  split; [vm_compute; reflexivity|]. split; [vm_compute; reflexivity|].
  split; vm_compute; reflexivity.
Qed.

(** [fetch_repo] when there is no fork to clone. *)
Lemma fetch_repo_clone_failure_witness :
  existsb (String.eqb "./feedstocks/foo-feedstock") (fs_dirs Example.no_fork_world)
  = false
  /\ fst (proc Example.no_fork_world (trace Example.no_fork_world)
            ["git"; "clone"; "-q"; "git@github.com:alice/foo-feedstock.git";
             "./feedstocks/foo-feedstock"]) <> 0%Z
  /\ fst (fetch_repo "./feedstocks/foo-feedstock"
                     "git@github.com:alice/foo-feedstock.git"
                     "git@github.com:conda-forge/foo-feedstock.git"
                     "1.2.3_h0" "main" Example.no_fork_world) = OK false.
Proof.
  split; [reflexivity|]. split; [vm_compute; discriminate|].
  rewrite (fetch_repo_clone_failure Example.no_fork_world
             "./feedstocks/foo-feedstock" "git@github.com:alice/foo-feedstock.git"
             "git@github.com:conda-forge/foo-feedstock.git" "1.2.3_h0" "main"
             computed ltac:(vm_compute; discriminate)).
  reflexivity.
Defined.

(** A record that was never trimmed: the first trimming drops keys,
    the second changes nothing. *)
Example trim_twice_untrimmed :
  let w1 := snd (trim_pr_json_keys 0 None Example.untrimmed_world) in
  heap w1 !! 0 <> heap Example.untrimmed_world !! 0
  /\ trim_pr_json_keys 0 None w1 = (OK 0, w1).
Proof. cbv zeta. split; [vm_compute; discriminate|vm_compute; reflexivity]. Qed.

(** * Further properties of the module *)

(** ** Strings *)











(** ** fork_url, feedstock_url, feedstock_repo *)










(** ** trim_pr_json_keys: what is kept, and what a failure leaves *)








(** ** Splitting strings *)
















(** ** lazy_update_pr_json: the request, and the repairs of older records *)

























(** ** refresh_pr and the two rules: what is called, and when *)

Lemma refresh_world_request w l d n num :
  refresh_world w l d n num = request_world w l d n num (if_none_match_of d).
Proof. done. Qed.











(** ** push_repo in live mode *)








(** ** fetch_repo *)














(** ** ensure_label_exists, label_pr *)




(** * The further properties on the sample worlds *)

























